(** * Frontline support pipeline: a shallow embedding of [agents_system.py]
    and of the [ConnectionManager] of [app.py].

    Python values are embedded as follows.  A [str] is a Rocq [string]
    whose characters are read as code points below 256; an [int] is a [Z];
    [None]-able values are [option]s; a [Dict[str, Any]] is an insertion
    ordered association list of [pyval]s; a database table is the list of
    its rows in storage order; an exception that leaves a function is the
    [Raise] branch of [result]. *)

From Stdlib Require Import ZArith List String Ascii Bool Lia DecimalString.
From Stdlib Require DecimalPos DecimalFacts.
Import ListNotations.
Local Open Scope string_scope.
Local Open Scope Z_scope.

(** ** Python strings *)

Module PyStr.

(** [str.lower] on one code point below 256: the capitals A-Z and the
    Latin-1 capitals U+00C0-U+00DE (U+00D7, the multiplication sign,
    apart) move up by 32, everything else stays. *)
Definition lower_char (c : ascii) : ascii :=
  let n := nat_of_ascii c in
  if ((65 <=? n) && (n <=? 90))%nat
     || ((192 <=? n) && (n <=? 222) && negb (n =? 215))%nat
  then ascii_of_nat (n + 32)
  else c.

Fixpoint lower (s : string) : string :=
  match s with
  | EmptyString => EmptyString
  | String c s' => String (lower_char c) (lower s')
  end.

Fixpoint startswith (w d : string) : bool :=
  match w with
  | EmptyString => true
  | String a w' =>
      match d with
      | EmptyString => false
      | String b d' => Ascii.eqb a b && startswith w' d'
      end
  end.

(** [w in d] on strings: [w] occurs in [d] as a contiguous run. *)
Fixpoint str_in (w d : string) : bool :=
  startswith w d ||
  match d with
  | EmptyString => false
  | String _ d' => str_in w d'
  end.

(** [any(word in text for word in words)] *)
Definition any_in (words : list string) (text : string) : bool :=
  existsb (fun word => str_in word text) words.

End PyStr.

(** ** Python values, dictionaries and exceptions *)

#[local] Set Warnings "-register-all".

Inductive pyval : Type :=
| VNone
| VBool (b : bool)
| VInt (z : Z)
| VStr (s : string)
| VList (l : list pyval)
| VDict (d : list (string * pyval)).

Definition pydict := list (string * pyval).

Inductive exn : Type :=
| TypeError (msg : string)
| KeyError (key : string)
| ValueError (msg : string)
| AttributeError (msg : string)
| RuntimeError (msg : string)
| GraphRecursionError (msg : string)
| OverflowError (msg : string).

Inductive result (A : Type) : Type :=
| Ok (a : A)
| Raise (e : exn).
Arguments Ok {A} a.
Arguments Raise {A} e.

Definition rbind {A B} (r : result A) (k : A -> result B) : result B :=
  match r with
  | Ok a => k a
  | Raise e => Raise e
  end.

Notation "x <- r ;; k" := (rbind r (fun x => k))
  (at level 61, r at next level, right associativity).

Definition nl : string := String (ascii_of_nat 10) EmptyString.
Definition dq : string := String (ascii_of_nat 34) EmptyString.

(** [str(n)] for an [int] *)
Definition str_of_int (z : Z) : string := NilZero.string_of_int (Z.to_int z).

(** [repr(s)] for a [str], as CPython's [unicode_repr] writes it for
    code points below 256.  The string is put in single quotes, or in
    double quotes when it holds a single quote and no double quote; the
    quote chosen and the backslash are escaped with a backslash; tab,
    line feed and carriage return are written [\t], [\n], [\r]; and a
    character that is not printable (a control character, the
    no-break space, the soft hyphen) is written [\xhh]. *)
Definition squote : ascii := "'"%char.
Definition dquote : ascii := ascii_of_nat 34.
Definition backslash : ascii := "\"%char.

Fixpoint has_char (c : ascii) (s : string) : bool :=
  match s with
  | EmptyString => false
  | String x r => Ascii.eqb x c || has_char c r
  end.

Definition hex_digit (n : nat) : ascii :=
  nth n ["0"; "1"; "2"; "3"; "4"; "5"; "6"; "7"; "8"; "9";
         "a"; "b"; "c"; "d"; "e"; "f"]%char "0"%char.

(** [Py_UNICODE_ISPRINTABLE] below 256 *)
Definition printable (c : ascii) : bool :=
  let n := nat_of_ascii c in
  ((32 <=? n) && (n <? 127) || (161 <=? n) && negb (n =? 173))%nat.

Definition repr_char (quote c : ascii) : string :=
  let n := nat_of_ascii c in
  if Ascii.eqb c quote || Ascii.eqb c backslash
  then String backslash (String c EmptyString)
  else if (n =? 9)%nat then String backslash "t"
  else if (n =? 10)%nat then String backslash "n"
  else if (n =? 13)%nat then String backslash "r"
  else if printable c then String c EmptyString
  else String backslash
         (String "x" (String (hex_digit (n / 16))
                        (String (hex_digit (n mod 16)) EmptyString))).

Fixpoint repr_chars (quote : ascii) (s : string) : string :=
  match s with
  | EmptyString => EmptyString
  | String c r => repr_char quote c ++ repr_chars quote r
  end.

Definition repr_str (s : string) : string :=
  let quote :=
    if has_char squote s && negb (has_char dquote s) then dquote else squote in
  String quote (repr_chars quote s ++ String quote EmptyString).

Fixpoint py_repr (v : pyval) : string :=
  match v with
  | VNone => "None"
  | VBool true => "True"
  | VBool false => "False"
  | VInt z => str_of_int z
  | VStr s => repr_str s
  | VList l =>
      "[" ++ (fix items (l : list pyval) : string :=
                match l with
                | [] => ""
                | [x] => py_repr x
                | x :: r => py_repr x ++ ", " ++ items r
                end) l ++ "]"
  | VDict d =>
      "{" ++ (fix items (d : list (string * pyval)) : string :=
                match d with
                | [] => ""
                | [(k, x)] => repr_str k ++ ": " ++ py_repr x
                | (k, x) :: r => repr_str k ++ ": " ++ py_repr x ++ ", " ++ items r
                end) d ++ "}"
  end.

(** [str(v)], which is what an f-string field [{v}] renders *)
Definition py_str (v : pyval) : string :=
  match v with
  | VStr s => s
  | _ => py_repr v
  end.

(** [str(e)] for an exception *)
Definition str_exn (e : exn) : string :=
  match e with
  | TypeError msg => msg
  | KeyError key => repr_str key
  | ValueError msg => msg
  | AttributeError msg => msg
  | RuntimeError msg => msg
  | GraphRecursionError msg => msg
  | OverflowError msg => msg
  end.

(** [d.get(k)] *)
Fixpoint dict_get (k : string) (d : pydict) : option pyval :=
  match d with
  | [] => None
  | (k', v) :: r => if String.eqb k k' then Some v else dict_get k r
  end.

(** [d[k] = v]: an existing key keeps its place, a new one goes last *)
Fixpoint dict_set (k : string) (v : pyval) (d : pydict) : pydict :=
  match d with
  | [] => [(k, v)]
  | (k', v') :: r =>
      if String.eqb k k' then (k', v) :: r else (k', v') :: dict_set k v r
  end.

(** [d[k]] *)
Definition dict_item (d : pydict) (k : string) : result pyval :=
  match dict_get k d with
  | Some v => Ok v
  | None => Raise (KeyError k)
  end.

(** [d.get(k, default)] *)
Definition dict_get_default (d : pydict) (k : string) (default : pyval) : pyval :=
  match dict_get k d with
  | Some v => v
  | None => default
  end.

(** [v[k]] for a value [v] of unknown type and a string key *)
Definition subscript (v : pyval) (k : string) : result pyval :=
  match v with
  | VDict d => dict_item d k
  | VNone => Raise (TypeError "'NoneType' object is not subscriptable")
  | VBool _ => Raise (TypeError "'bool' object is not subscriptable")
  | VInt _ => Raise (TypeError "'int' object is not subscriptable")
  | VStr _ => Raise (TypeError "string indices must be integers")
  | VList _ => Raise (TypeError "list indices must be integers or slices, not str")
  end.

Definition opt_val (o : option string) : pyval :=
  match o with
  | Some s => VStr s
  | None => VNone
  end.

(** ** [datetime]

    A naive [datetime] is the number of microseconds since
    1970-01-01T00:00:00, a [date] the number of days since 1970-01-01, a
    [timedelta] a number of microseconds.  A [datetime] holds the years
    1 to 9999: an addition that leaves them raises [OverflowError]. *)

Module DateTime.

Definition datetime := Z.
Definition date := Z.

Definition us_per_second : Z := 1000000.
Definition us_per_day : Z := 86400 * us_per_second.

(** [timedelta(days=d, hours=h)] *)
Definition timedelta (days hours : Z) : Z :=
  days * us_per_day + hours * 3600 * us_per_second.

(** [t.date()] *)
Definition date_of (t : datetime) : date := t / us_per_day.

(** midnight of a [date], the instant a [date] stands for when it is
    compared with a [DateTime] column *)
Definition midnight (d : date) : datetime := d * us_per_day.

(** proleptic Gregorian calendar: (year, month, day) of a day number *)
Definition civil_from_days (days : Z) : Z * Z * Z :=
  let z := days + 719468 in
  let era := z / 146097 in
  let doe := z - era * 146097 in
  let yoe := (doe - doe / 1460 + doe / 36524 - doe / 146096) / 365 in
  let y := yoe + era * 400 in
  let doy := doe - (365 * yoe + yoe / 4 - yoe / 100) in
  let mp := (5 * doy + 2) / 153 in
  let d := doy - (153 * mp + 2) / 5 + 1 in
  let m := if mp <? 10 then mp + 3 else mp - 9 in
  (if m <=? 2 then y + 1 else y, m, d).

Definition days_from_civil (y m d : Z) : Z :=
  let y := if m <=? 2 then y - 1 else y in
  let era := y / 400 in
  let yoe := y - era * 400 in
  let doy := (153 * (if 2 <? m then m - 3 else m + 9) + 2) / 5 + d - 1 in
  let doe := yoe * 365 + yoe / 4 - yoe / 100 + doy in
  era * 146097 + doe - 719468.

(** [datetime.min] and [datetime.max] *)
Definition min_datetime : datetime := midnight (days_from_civil 1 1 1).
Definition max_datetime : datetime := midnight (days_from_civil 10000 1 1) - 1.

(** the instants a [datetime] can hold: years 1 to 9999 *)
Definition valid_datetime (t : datetime) : Prop :=
  min_datetime <= t <= max_datetime.

(** [t + delta] for a [datetime] and a [timedelta] *)
Definition add_timedelta (t : datetime) (delta : Z) : result datetime :=
  if (min_datetime <=? t + delta) && (t + delta <=? max_datetime)
  then Ok (t + delta)
  else Raise (OverflowError "date value out of range").

Definition year (t : datetime) : Z := fst (fst (civil_from_days (date_of t))).
Definition month (t : datetime) : Z := snd (fst (civil_from_days (date_of t))).
Definition day (t : datetime) : Z := snd (civil_from_days (date_of t)).
Definition hour (t : datetime) : Z := (t mod us_per_day) / (3600 * us_per_second).
Definition minute (t : datetime) : Z := (t mod (3600 * us_per_second)) / (60 * us_per_second).
Definition second (t : datetime) : Z := (t mod (60 * us_per_second)) / us_per_second.
Definition microsecond (t : datetime) : Z := t mod us_per_second.

(** [t.weekday()]: Monday is 0; 1970-01-01 was a Thursday *)
Definition weekday (t : datetime) : Z := (date_of t + 3) mod 7.

Fixpoint zeros (n : nat) : string :=
  match n with
  | O => ""
  | S n' => "0" ++ zeros n'
  end.

(** a non-negative number, zero-padded on the left to [width] digits *)
Definition pad (width : nat) (z : Z) : string :=
  let s := str_of_int z in
  zeros (width - String.length s) ++ s.

Definition day_name (wd : Z) : string :=
  nth (Z.to_nat wd)
    ["Monday"; "Tuesday"; "Wednesday"; "Thursday"; "Friday"; "Saturday"; "Sunday"] "".

Definition month_name (m : Z) : string :=
  nth (Z.to_nat (m - 1))
    ["January"; "February"; "March"; "April"; "May"; "June"; "July";
     "August"; "September"; "October"; "November"; "December"] "".

(** one [strftime] directive (C locale); an unknown one is copied *)
Definition directive (c : ascii) (t : datetime) : string :=
  if Ascii.eqb c "Y" then pad 4 (year t)
  else if Ascii.eqb c "m" then pad 2 (month t)
  else if Ascii.eqb c "d" then pad 2 (day t)
  else if Ascii.eqb c "H" then pad 2 (hour t)
  else if Ascii.eqb c "M" then pad 2 (minute t)
  else if Ascii.eqb c "I" then pad 2 (if hour t mod 12 =? 0 then 12 else hour t mod 12)
  else if Ascii.eqb c "p" then (if hour t <? 12 then "AM" else "PM")
  else if Ascii.eqb c "A" then day_name (weekday t)
  else if Ascii.eqb c "B" then month_name (month t)
  else if Ascii.eqb c "%" then "%"
  else String "%" (String c "").

(** [t.strftime(fmt)] *)
Fixpoint strftime (fmt : string) (t : datetime) : string :=
  match fmt with
  | EmptyString => EmptyString
  | String c rest =>
      if Ascii.eqb c "%" then
        match rest with
        | EmptyString => String c EmptyString
        | String c' rest' => directive c' t ++ strftime rest' t
        end
      else String c (strftime rest t)
  end.

(** [t.isoformat()] *)
Definition isoformat (t : datetime) : string :=
  pad 4 (year t) ++ "-" ++ pad 2 (month t) ++ "-" ++ pad 2 (day t) ++ "T" ++
  pad 2 (hour t) ++ ":" ++ pad 2 (minute t) ++ ":" ++ pad 2 (second t) ++
  (if microsecond t =? 0 then "" else "." ++ pad 6 (microsecond t)).

Definition is_digit (c : ascii) : bool :=
  let n := nat_of_ascii c in ((48 <=? n) && (n <=? 57))%nat.

Fixpoint digits_value (acc : Z) (s : string) : option Z :=
  match s with
  | EmptyString => Some acc
  | String c s' =>
      if is_digit c
      then digits_value (10 * acc + Z.of_nat (nat_of_ascii c - 48)) s'
      else None
  end.

(** the decimal number written at [pos], [len] digits long *)
Definition field (s : string) (pos len : nat) : option Z :=
  let f := substring pos len s in
  if (String.length f =? len)%nat then digits_value 0 f else None.

Definition char_is (s : string) (pos : nat) (c : ascii) : bool :=
  match get pos s with
  | Some c' => Ascii.eqb c c'
  | None => false
  end.

Definition obind {A B} (o : option A) (k : A -> option B) : option B :=
  match o with
  | Some a => k a
  | None => None
  end.

(** The naive forms [YYYY-MM-DD], then after any one separator [HH],
    [HH:MM], [HH:MM:SS], and a fraction of three or six digits; [None]
    for anything else (the forms with a UTC offset included, which the
    pipeline never writes). *)
Definition parse_iso (s : string) : option datetime :=
  let n := String.length s in
  let want (len : nat) (k : option Z) : option Z :=
    if (len <=? n)%nat then k else Some 0 in
  if negb (existsb (Nat.eqb n) [10; 13; 16; 19; 23; 26])%nat then None else
  if negb (char_is s 4 "-" && char_is s 7 "-") then None else
  if (16 <=? n)%nat && negb (char_is s 13 ":") then None else
  if (19 <=? n)%nat && negb (char_is s 16 ":") then None else
  if (23 <=? n)%nat && negb (char_is s 19 ".") then None else
  obind (field s 0 4) (fun y =>
  obind (field s 5 2) (fun m =>
  obind (field s 8 2) (fun d =>
  obind (want 13%nat (field s 11 2)) (fun hh =>
  obind (want 16%nat (field s 14 2)) (fun mm =>
  obind (want 19%nat (field s 17 2)) (fun ss =>
  obind (want 23%nat (if (n =? 23)%nat
                  then option_map (Z.mul 1000) (field s 20 3)
                  else field s 20 6)) (fun us =>
  let days := days_from_civil y m d in
  let valid :=
    (1 <=? y) &&
    (let '(y', m', d') := civil_from_days days in
     (y' =? y) && (m' =? m) && (d' =? d)) &&
    (hh <? 24) && (mm <? 60) && (ss <? 60) in
  if valid
  then Some (days * us_per_day + ((hh * 60 + mm) * 60 + ss) * us_per_second + us)
  else None))))))).

(** [datetime.fromisoformat(v)] *)
Definition fromisoformat (v : pyval) : result datetime :=
  match v with
  | VStr s =>
      match parse_iso s with
      | Some t => Ok t
      | None => Raise (ValueError ("Invalid isoformat string: " ++ repr_str s))
      end
  | _ => Raise (TypeError "fromisoformat: argument must be str")
  end.

End DateTime.

(** ** [database_models.py] *)

Import DateTime.

Inductive UrgencyLevel := LOW | MEDIUM | HIGH | CRITICAL.

Inductive CaseStatus :=
| SUBMITTED | TRIAGED | ASSIGNED | SCHEDULED | IN_PROGRESS | COMPLETED | CANCELLED.

Inductive ServiceType := MEDICAL | EMERGENCY | SOCIAL | ADMINISTRATIVE.

Definition CaseStatus_value (s : CaseStatus) : string :=
  match s with
  | SUBMITTED => "submitted"
  | TRIAGED => "triaged"
  | ASSIGNED => "assigned"
  | SCHEDULED => "scheduled"
  | IN_PROGRESS => "in_progress"
  | COMPLETED => "completed"
  | CANCELLED => "cancelled"
  end.

(** [UrgencyLevel(value)] *)
Definition UrgencyLevel_of (value : string) : result UrgencyLevel :=
  if String.eqb value "low" then Ok LOW
  else if String.eqb value "medium" then Ok MEDIUM
  else if String.eqb value "high" then Ok HIGH
  else if String.eqb value "critical" then Ok CRITICAL
  else Raise (ValueError (repr_str value ++ " is not a valid UrgencyLevel")).

(** [ServiceType(value)] *)
Definition ServiceType_of (value : pyval) : result ServiceType :=
  match value with
  | VStr "medical" => Ok MEDICAL
  | VStr "emergency" => Ok EMERGENCY
  | VStr "social" => Ok SOCIAL
  | VStr "administrative" => Ok ADMINISTRATIVE
  | _ => Raise (ValueError (py_repr value ++ " is not a valid ServiceType"))
  end.

Definition ServiceType_eqb (a b : ServiceType) : bool :=
  match a, b with
  | MEDICAL, MEDICAL | EMERGENCY, EMERGENCY
  | SOCIAL, SOCIAL | ADMINISTRATIVE, ADMINISTRATIVE => true
  | _, _ => false
  end.

(** [level.value], [service_type.value] *)
Definition UrgencyLevel_value (u : UrgencyLevel) : string :=
  match u with
  | LOW => "low"
  | MEDIUM => "medium"
  | HIGH => "high"
  | CRITICAL => "critical"
  end.

Definition ServiceType_value (t : ServiceType) : string :=
  match t with
  | MEDICAL => "medical"
  | EMERGENCY => "emergency"
  | SOCIAL => "social"
  | ADMINISTRATIVE => "administrative"
  end.

(** The columns the pipeline reads or writes; [title], [created_at] of a
    case, [capacity_per_hour] and the like are left out. *)

Module Citizen.
Record t := mk {
  id : Z;
  name : string;
  email : option string;
  phone : option string;
  address : option string }.
End Citizen.

Module Service.
Record t := mk {
  id : Z;
  name : string;
  type : ServiceType;
  department : option string;
  location : option string;
  contact_info : option string;
  is_emergency : bool }.
End Service.

Module Case.
Record t := mk {
  id : Z;
  citizen_id : Z;
  description : string;
  urgency : option UrgencyLevel;
  status : CaseStatus;
  assigned_service_id : option Z;
  updated_at : option datetime;
  triage_notes : option string;
  estimated_duration : option Z }.
End Case.

Module Appointment.
Record t := mk {
  id : Z;
  case_id : Z;
  service_id : Z;
  scheduled_time : datetime;
  duration_minutes : pyval;
  confirmation_sent : bool;
  notes : string;
  created_at : datetime }.
End Appointment.

Module CaseUpdate.
Record t := mk {
  id : Z;
  case_id : Z;
  message : string;
  update_type : string;
  agent_type : string;
  created_at : datetime }.
End CaseUpdate.

Module SystemMetrics.
Record t := mk {
  id : Z;
  service_id : Z;
  date : datetime;
  demand_count : Z }.
End SystemMetrics.

(** What the session sees: every table, rows in storage order. *)
Record DB := mkDB {
  services : list Service.t;
  citizens : list Citizen.t;
  cases : list Case.t;
  appointments : list Appointment.t;
  case_updates : list CaseUpdate.t;
  system_metrics : list SystemMetrics.t }.

(** [query.first()] is [find], [query.all()] is [filter]. *)

(** An attribute assignment on the object [query.first()] returned:
    the first row that satisfies [p] is rewritten. *)
Fixpoint update_first {A} (p : A -> bool) (f : A -> A) (rows : list A) : list A :=
  match rows with
  | [] => []
  | r :: rs => if p r then f r :: rs else r :: update_first p f rs
  end.

(** the key an inserted row receives: one more than the largest so far *)
Definition next_id {A} (id : A -> Z) (rows : list A) : Z :=
  1 + fold_right (fun r m => Z.max (id r) m) 0 rows.

Definition with_cases (db : DB) (cs : list Case.t) : DB :=
  mkDB (services db) (citizens db) cs (appointments db) (case_updates db)
       (system_metrics db).

Definition with_appointments (db : DB) (aps : list Appointment.t) : DB :=
  mkDB (services db) (citizens db) (cases db) aps (case_updates db)
       (system_metrics db).

Definition with_system_metrics (db : DB) (ms : list SystemMetrics.t) : DB :=
  mkDB (services db) (citizens db) (cases db) (appointments db)
       (case_updates db) ms.

(** [db_session.add(CaseUpdate(...))] *)
Definition add_update (now : datetime) (case_id : Z)
    (message update_type agent_type : string) (db : DB) : DB :=
  mkDB (services db) (citizens db) (cases db) (appointments db)
       (case_updates db ++
        [CaseUpdate.mk (next_id CaseUpdate.id (case_updates db)) case_id
                       message update_type agent_type now])
       (system_metrics db).

(** ** [agents_system.py] *)

Inductive BaseMessage :=
| HumanMessage (content : string)
| AIMessage (content : string).

Definition content (m : BaseMessage) : string :=
  match m with
  | HumanMessage c => c
  | AIMessage c => c
  end.

Record AgentState := mkState {
  case_id : Z;
  citizen_data : pydict;
  case_description : string;
  urgency_level : string;
  assigned_service_id : option Z;
  appointment_details : option pydict;
  messages : list BaseMessage;
  agent_outputs : pydict;
  current_status : string;
  error_message : option string;
  offline_mode : bool }.

Definition set_urgency_level (v : string) (s : AgentState) : AgentState :=
  mkState (case_id s) (citizen_data s) (case_description s) v
          (assigned_service_id s) (appointment_details s) (messages s)
          (agent_outputs s) (current_status s) (error_message s) (offline_mode s).

Definition set_assigned_service_id (v : option Z) (s : AgentState) : AgentState :=
  mkState (case_id s) (citizen_data s) (case_description s) (urgency_level s)
          v (appointment_details s) (messages s)
          (agent_outputs s) (current_status s) (error_message s) (offline_mode s).

Definition set_appointment_details (v : option pydict) (s : AgentState) : AgentState :=
  mkState (case_id s) (citizen_data s) (case_description s) (urgency_level s)
          (assigned_service_id s) v (messages s)
          (agent_outputs s) (current_status s) (error_message s) (offline_mode s).

(** [state["messages"].append(m)] *)
Definition append_message (m : BaseMessage) (s : AgentState) : AgentState :=
  mkState (case_id s) (citizen_data s) (case_description s) (urgency_level s)
          (assigned_service_id s) (appointment_details s) (messages s ++ [m])
          (agent_outputs s) (current_status s) (error_message s) (offline_mode s).

(** [state["agent_outputs"][k] = v] *)
Definition set_agent_output (k : string) (v : pyval) (s : AgentState) : AgentState :=
  mkState (case_id s) (citizen_data s) (case_description s) (urgency_level s)
          (assigned_service_id s) (appointment_details s) (messages s)
          (dict_set k v (agent_outputs s)) (current_status s) (error_message s)
          (offline_mode s).

Definition set_current_status (v : string) (s : AgentState) : AgentState :=
  mkState (case_id s) (citizen_data s) (case_description s) (urgency_level s)
          (assigned_service_id s) (appointment_details s) (messages s)
          (agent_outputs s) v (error_message s) (offline_mode s).

Definition set_error_message (v : option string) (s : AgentState) : AgentState :=
  mkState (case_id s) (citizen_data s) (case_description s) (urgency_level s)
          (assigned_service_id s) (appointment_details s) (messages s)
          (agent_outputs s) (current_status s) v (offline_mode s).

(** A stage handler: it reads and writes the session and either returns
    the state or raises.  The writes made before a raise stay in the
    session.  Each handler below takes [now], the UTC clock that
    [datetime.utcnow()] reads and the database uses for its [func.now()]
    defaults; one reading serves a whole run. *)
Definition Handler := AgentState -> DB -> result AgentState * DB.

(** *** TriageAgent *)

Definition critical_words : list string :=
  ["emergency"; "urgent"; "critical"; "severe"; "life-threatening"].
Definition high_words : list string := ["pain"; "injury"; "bleeding"; "fever"].
Definition medium_words : list string := ["appointment"; "consultation"; "check-up"].

Definition _determine_urgency (description : string) : string :=
  let description_lower := PyStr.lower description in
  if PyStr.any_in critical_words description_lower then "critical"
  else if PyStr.any_in high_words description_lower then "high"
  else if PyStr.any_in medium_words description_lower then "medium"
  else "low".

Definition _determine_service_type (description : string) : string :=
  let description_lower := PyStr.lower description in
  if PyStr.any_in ["medical"; "doctor"; "hospital"; "health"; "pain"; "injury"]
       description_lower then "medical"
  else if PyStr.any_in ["emergency"; "police"; "fire"; "ambulance"]
       description_lower then "emergency"
  else if PyStr.any_in ["social"; "welfare"; "benefits"; "housing"]
       description_lower then "social"
  else "administrative".

Definition _estimate_duration (description urgency : string) : Z :=
  if String.eqb urgency "critical" then 60
  else if String.eqb urgency "high" then 45
  else if String.eqb urgency "medium" then 30
  else 15.

Definition analyze_case (now : datetime) : Handler := fun state db =>
  let case_id := case_id state in
  let case_description := case_description state in
  match find (fun c => Case.id c =? case_id) (cases db) with
  | None => (Ok (set_error_message (Some "Case not found") state), db)
  | Some _ =>
      let urgency := _determine_urgency case_description in
      let service_type := _determine_service_type case_description in
      let estimated_duration := _estimate_duration case_description urgency in
      match UrgencyLevel_of urgency with
      | Raise e => (Raise e, db)
      | Ok level =>
          let triage_notes :=
            "Automated triage: " ++ urgency ++ " priority, " ++ service_type
            ++ " service needed" in
          let db := with_cases db
            (update_first (fun c => Case.id c =? case_id)
               (fun c => Case.mk (Case.id c) (Case.citizen_id c)
                           (Case.description c) (Some level) TRIAGED
                           (Case.assigned_service_id c) (Some now)
                           (Some triage_notes) (Some estimated_duration))
               (cases db)) in
          let db := add_update now case_id
            ("Case triaged as " ++ urgency ++ " priority requiring "
             ++ service_type ++ " service") "triage" "triage" db in
          let state := set_urgency_level urgency state in
          let state := set_current_status "triaged" state in
          let state := set_agent_output "triage"
            (VDict [("urgency", VStr urgency);
                    ("service_type", VStr service_type);
                    ("estimated_duration", VInt estimated_duration);
                    ("notes", VStr triage_notes)]) state in
          let state := append_message
            (AIMessage ("Triage completed: " ++ urgency
                        ++ " priority case requiring " ++ service_type
                        ++ " service")) state in
          (Ok state, db)
      end
  end.

(** *** GuidanceAgent *)

(** the [query] that [match_service] builds and runs with [.all()] *)
Definition service_query (urgency : string) (wanted : ServiceType) (db : DB)
    : list Service.t :=
  let query :=
    filter (fun s => ServiceType_eqb (Service.type s) wanted) (services db) in
  let query :=
    if existsb (String.eqb urgency) ["critical"; "high"]
    then filter Service.is_emergency query
    else query in
  query.

Definition match_service (now : datetime) : Handler := fun state db =>
  let urgency := urgency_level state in
  match (triage <- dict_item (agent_outputs state) "triage" ;;
         subscript triage "service_type") with
  | Raise e => (Raise e, db)
  | Ok service_type =>
  match ServiceType_of service_type with
  | Raise e => (Raise e, db)
  | Ok wanted =>
      match service_query urgency wanted db with
      | [] =>
          (Ok (set_error_message
                 (Some ("No available services for " ++ py_str service_type))
                 state), db)
      | selected_service :: _ =>
          match find (fun c => Case.id c =? case_id state) (cases db) with
          | None =>
              (Raise (AttributeError
                 "'NoneType' object has no attribute 'assigned_service_id'"), db)
          | Some _ =>
              let db := with_cases db
                (update_first (fun c => Case.id c =? case_id state)
                   (fun c => Case.mk (Case.id c) (Case.citizen_id c)
                               (Case.description c) (Case.urgency c) ASSIGNED
                               (Some (Service.id selected_service)) (Some now)
                               (Case.triage_notes c) (Case.estimated_duration c))
                   (cases db)) in
              let db := add_update now (case_id state)
                ("Case assigned to " ++ Service.name selected_service ++ " at "
                 ++ py_str (opt_val (Service.location selected_service)))
                "assignment" "guidance" db in
              let state :=
                set_assigned_service_id (Some (Service.id selected_service)) state in
              let state := set_current_status "assigned" state in
              let state := set_agent_output "guidance"
                (VDict
                   [("service_name", VStr (Service.name selected_service));
                    ("service_location", opt_val (Service.location selected_service));
                    ("service_contact", opt_val (Service.contact_info selected_service));
                    ("department", opt_val (Service.department selected_service))])
                state in
              let state := append_message
                (AIMessage ("Case assigned to " ++ Service.name selected_service
                            ++ " in "
                            ++ py_str (opt_val (Service.department selected_service))))
                state in
              (Ok state, db)
          end
      end
  end
  end.

(** *** BookingAgent *)

(** [now + timedelta(...)] raises [OverflowError] when the sum is past
    the year 9999, and the exception leaves [book_appointment] *)
Definition _find_next_slot (now : datetime) (service : Service.t)
    (urgency : string) : result datetime :=
  if String.eqb urgency "critical" then add_timedelta now (timedelta 0 1)
  else if String.eqb urgency "high" then add_timedelta now (timedelta 0 4)
  else if String.eqb urgency "medium" then add_timedelta now (timedelta 1 0)
  else add_timedelta now (timedelta 3 0).

(** [query(Service).filter(Service.id == service_id).first()]; no row has
    a null key, so [None] finds nothing *)
Definition service_by_id (service_id : option Z) (db : DB) : option Service.t :=
  match service_id with
  | None => None
  | Some sid => find (fun s => Service.id s =? sid) (services db)
  end.

Definition book_appointment (now : datetime) : Handler := fun state db =>
  let service_id := assigned_service_id state in
  let case_id := case_id state in
  let urgency := urgency_level state in
  match (triage <- dict_item (agent_outputs state) "triage" ;;
         subscript triage "estimated_duration") with
  | Raise e => (Raise e, db)
  | Ok estimated_duration =>
  match service_by_id service_id db with
  | None => (Ok (set_error_message (Some "Service not found") state), db)
  | Some service =>
  match _find_next_slot now service urgency with
  | Raise e => (Raise e, db)
  | Ok scheduled_time =>
      let db := with_appointments db
        (appointments db ++
         [Appointment.mk (next_id Appointment.id (appointments db)) case_id
            (Service.id service) scheduled_time estimated_duration false
            ("Auto-booked " ++ urgency ++ " priority appointment") now]) in
      match find (fun c => Case.id c =? case_id) (cases db) with
      | None =>
          (Raise (AttributeError "'NoneType' object has no attribute 'status'"), db)
      | Some _ =>
          let db := with_cases db
            (update_first (fun c => Case.id c =? case_id)
               (fun c => Case.mk (Case.id c) (Case.citizen_id c)
                           (Case.description c) (Case.urgency c) SCHEDULED
                           (Case.assigned_service_id c) (Some now)
                           (Case.triage_notes c) (Case.estimated_duration c))
               (cases db)) in
          let db := add_update now case_id
            ("Appointment scheduled for "
             ++ strftime "%Y-%m-%d %H:%M" scheduled_time ++ " at "
             ++ Service.name service) "booking" "booking" db in
          let details : pydict :=
            [("service_name", VStr (Service.name service));
             ("location", opt_val (Service.location service));
             ("scheduled_time", VStr (isoformat scheduled_time));
             ("duration", estimated_duration);
             ("contact", opt_val (Service.contact_info service))] in
          let state := set_appointment_details (Some details) state in
          let state := set_current_status "scheduled" state in
          let state := set_agent_output "booking" (VDict details) state in
          let state := append_message
            (AIMessage ("Appointment booked for "
                        ++ strftime "%B %d, %Y at %I:%M %p" scheduled_time))
            state in
          (Ok state, db)
      end
  end
  end
  end.

(** *** FollowUpAgent *)

Definition indent : string := "        ".

(** The template of the source, line by line; the four pictographs that
    open the "Date & Time", "Location", "Duration" and "Contact" lines
    are left out. *)
Definition _generate_confirmation_message (appointment : option pydict)
    (citizen_data : pydict) : result string :=
  match appointment with
  | None => Raise (TypeError "'NoneType' object is not subscriptable")
  | Some appointment =>
      iso <- dict_item appointment "scheduled_time" ;;
      scheduled_time <- fromisoformat iso ;;
      let name := dict_get_default citizen_data "name" (VStr "Citizen") in
      service_name <- dict_item appointment "service_name" ;;
      location <- dict_item appointment "location" ;;
      duration <- dict_item appointment "duration" ;;
      let contact := dict_get_default appointment "contact" (VStr "N/A") in
      Ok (nl ++
          indent ++ "Hello " ++ py_str name ++ "," ++ nl ++
          indent ++ nl ++
          indent ++ "Your appointment has been successfully booked:" ++ nl ++
          indent ++ nl ++
          indent ++ " Date & Time: "
            ++ strftime "%A, %B %d, %Y at %I:%M %p" scheduled_time ++ nl ++
          indent ++ " Location: " ++ py_str service_name ++ " - "
            ++ py_str location ++ nl ++
          indent ++ " Duration: " ++ py_str duration ++ " minutes" ++ nl ++
          indent ++ " Contact: " ++ py_str contact ++ nl ++
          indent ++ nl ++
          indent ++ "Please bring:" ++ nl ++
          indent ++ "- Valid ID card" ++ nl ++
          indent ++ "- Any relevant medical documents" ++ nl ++
          indent ++ "- Insurance information (if applicable)" ++ nl ++
          indent ++ nl ++
          indent ++ "If you need to reschedule, please contact us at least 2 hours in advance." ++ nl ++
          indent ++ nl ++
          indent ++ "Thank you for using our service!" ++ nl ++
          indent)
  end.

Definition send_confirmation (now : datetime) : Handler := fun state db =>
  let appointment := appointment_details state in
  let citizen_data := citizen_data state in
  match _generate_confirmation_message appointment citizen_data with
  | Raise e => (Raise e, db)
  | Ok confirmation_message =>
      let case_id := case_id state in
      (* nothing to rewrite when no appointment of the case is found *)
      let db := with_appointments db
        (update_first (fun a => Appointment.case_id a =? case_id)
           (fun a => Appointment.mk (Appointment.id a) (Appointment.case_id a)
                       (Appointment.service_id a) (Appointment.scheduled_time a)
                       (Appointment.duration_minutes a) true
                       (Appointment.notes a) (Appointment.created_at a))
           (appointments db)) in
      let db := add_update now case_id "Confirmation sent to citizen"
                  "confirmation" "follow_up" db in
      let state := set_agent_output "followup"
        (VDict [("confirmation_message", VStr confirmation_message);
                ("confirmation_sent", VBool true)]) state in
      let state := append_message
        (AIMessage "Confirmation message sent to citizen") state in
      (Ok state, db)
  end.

(** *** EquityOversightAgent *)

(** [if service_id:] is false for [None] and for [0] *)
Definition truthy (service_id : option Z) : bool :=
  match service_id with
  | None => false
  | Some z => negb (z =? 0)
  end.

(** the rows [filter(service_id == sid, date >= today)] keeps *)
Definition metric_matches (sid : Z) (today : date) (m : SystemMetrics.t) : bool :=
  (SystemMetrics.service_id m =? sid) && (midnight today <=? SystemMetrics.date m).

(** [metric.demand_count += 1] *)
Definition count_one_more (m : SystemMetrics.t) : SystemMetrics.t :=
  SystemMetrics.mk (SystemMetrics.id m) (SystemMetrics.service_id m)
                   (SystemMetrics.date m) (SystemMetrics.demand_count m + 1).

Definition track_metrics (now : datetime) : Handler := fun state db =>
  let service_id := assigned_service_id state in
  let db :=
    match service_id with
    | Some sid =>
        if truthy service_id then
          let today := date_of now in
          match find (metric_matches sid today) (system_metrics db) with
          | None =>
              with_system_metrics db
                (system_metrics db ++
                 [SystemMetrics.mk (next_id SystemMetrics.id (system_metrics db))
                                   sid now 1])
          | Some _ =>
              with_system_metrics db
                (update_first (metric_matches sid today) count_one_more
                   (system_metrics db))
          end
        else db
    | None => db
    end in
  (Ok (set_agent_output "equity"
         (VDict [("metrics_updated", VBool true);
                 ("timestamp", VStr (isoformat now))]) state), db).

(** *** The workflow graph

    The part of LangGraph the workflow uses.  A compiled graph runs one
    node at a time: the entry point first, then the node its outgoing
    edge names, until the edge leads to [END].  Every key of the state
    is a last-value channel and each handler returns the whole state, so
    the state a node returns is the state the next node receives.  An
    exception raised by a handler leaves [ainvoke].  The run gives up
    after [recursion_limit] steps. *)

Definition END : string := "__end__".

Record StateGraph := mkGraph {
  nodes : list (string * Handler);
  entry_point : option string;
  edges : list (string * string) }.

Definition add_node (name : string) (h : Handler) (g : StateGraph) : StateGraph :=
  mkGraph (nodes g ++ [(name, h)]) (entry_point g) (edges g).

Definition set_entry_point (name : string) (g : StateGraph) : StateGraph :=
  mkGraph (nodes g) (Some name) (edges g).

Definition add_edge (src dst : string) (g : StateGraph) : StateGraph :=
  mkGraph (nodes g) (entry_point g) (edges g ++ [(src, dst)]).

Fixpoint assoc {V} (k : string) (l : list (string * V)) : option V :=
  match l with
  | [] => None
  | (k', v) :: r => if String.eqb k k' then Some v else assoc k r
  end.

Definition recursion_limit : nat := 25.

(** A run: what [ainvoke] gives back, the session afterwards, and the
    handlers that were called, in order, each with what it returned. *)
Record Run := mkRun {
  run_result : result AgentState;
  run_db : DB;
  run_trace : list (string * result AgentState) }.

Fixpoint run_from (limit : nat) (g : StateGraph) (node : string)
    (state : AgentState) (db : DB) : Run :=
  if String.eqb node END then mkRun (Ok state) db [] else
  match limit with
  | O =>
      mkRun (Raise (GraphRecursionError
               "Recursion limit of 25 reached without hitting a stop condition."))
            db []
  | S limit' =>
      match assoc node (nodes g) with
      | None => mkRun (Raise (ValueError ("unknown node " ++ repr_str node))) db []
      | Some handler =>
          match handler state db with
          | (Raise e, db') => mkRun (Raise e) db' [(node, Raise e)]
          | (Ok state', db') =>
              match assoc node (edges g) with
              | None => mkRun (Ok state') db' [(node, Ok state')]
              | Some next =>
                  let r := run_from limit' g next state' db' in
                  mkRun (run_result r) (run_db r)
                        ((node, Ok state') :: run_trace r)
              end
          end
      end
  end.

Definition ainvoke (g : StateGraph) (state : AgentState) (db : DB) : Run :=
  match entry_point g with
  | None => mkRun (Raise (ValueError "graph has no entry point")) db []
  | Some start => run_from recursion_limit g start state db
  end.

(** *** FrontlineAgentSystem *)

Definition _create_workflow (now : datetime) : StateGraph :=
  let workflow := mkGraph [] None [] in
  let workflow := add_node "triage" (analyze_case now) workflow in
  let workflow := add_node "guidance" (match_service now) workflow in
  let workflow := add_node "booking" (book_appointment now) workflow in
  let workflow := add_node "followup" (send_confirmation now) workflow in
  let workflow := add_node "equity" (track_metrics now) workflow in
  let workflow := set_entry_point "triage" workflow in
  let workflow := add_edge "triage" "guidance" workflow in
  let workflow := add_edge "guidance" "booking" workflow in
  let workflow := add_edge "booking" "followup" workflow in
  let workflow := add_edge "followup" "equity" workflow in
  let workflow := add_edge "equity" END workflow in
  workflow.

Definition initial_state (case_id : Z) (offline_mode : bool)
    (case : Case.t) (citizen : Citizen.t) : AgentState :=
  mkState case_id
    [("name", VStr (Citizen.name citizen));
     ("email", opt_val (Citizen.email citizen));
     ("phone", opt_val (Citizen.phone citizen));
     ("address", opt_val (Citizen.address citizen))]
    (Case.description case)
    ""
    None
    None
    [HumanMessage (Case.description case)]
    []
    (CaseStatus_value (Case.status case))
    None
    offline_mode.

Definition success_outcome (case_id : Z) (final_state : AgentState) : pydict :=
  [("success", VBool true);
   ("case_id", VInt case_id);
   ("final_status", VStr (current_status final_state));
   ("agent_outputs", VDict (agent_outputs final_state));
   ("appointment_details",
    match appointment_details final_state with
    | Some d => VDict d
    | None => VNone
    end);
   ("messages", VList (map (fun msg => VStr (content msg)) (messages final_state)))].

Definition failure_outcome (case_id : Z) (e : exn) : pydict :=
  [("success", VBool false);
   ("error", VStr (str_exn e));
   ("case_id", VInt case_id)].

(** What a call of [process_case] does: the dictionary it returns (or
    the exception it lets through), the session afterwards, and the
    stage handlers that were called. *)
Record CaseRun := mkCaseRun {
  returned : result pydict;
  final_db : DB;
  stages : list (string * result AgentState) }.

(** [self.workflow] is all [process_case] uses of the system. *)
Record FrontlineAgentSystem := mkSystem { workflow : StateGraph }.

(** [FrontlineAgentSystem(db_session)], with the clock its agents read *)
Definition new_system (now : datetime) : FrontlineAgentSystem :=
  mkSystem (_create_workflow now).

Definition process_case (self : FrontlineAgentSystem) (case_id : Z)
    (offline_mode : bool) (db : DB) : CaseRun :=
  match find (fun c => Case.id c =? case_id) (cases db) with
  | None => mkCaseRun (Ok [("error", VStr "Case not found")]) db []
  | Some case =>
      match find (fun c => Citizen.id c =? Case.citizen_id case) (citizens db) with
      | None =>
          (* [citizen.name] on [None], before the [try] *)
          mkCaseRun (Raise (AttributeError
                       "'NoneType' object has no attribute 'name'")) db []
      | Some citizen =>
          let r := ainvoke (workflow self)
                     (initial_state case_id offline_mode case citizen) db in
          match run_result r with
          | Ok final_state =>
              mkCaseRun (Ok (success_outcome case_id final_state))
                        (run_db r) (run_trace r)
          | Raise e =>
              mkCaseRun (Ok (failure_outcome case_id e)) (run_db r) (run_trace r)
          end
      end
  end.

(** *** OfflineModeHandler *)

(** [type(v).__name__] *)
Definition type_name (v : pyval) : string :=
  match v with
  | VNone => "NoneType"
  | VBool _ => "bool"
  | VInt _ => "int"
  | VStr _ => "str"
  | VList _ => "list"
  | VDict _ => "dict"
  end.

(** [v.lower()] for a value of unknown type: only a [str] has the method *)
Definition method_lower (v : pyval) : result string :=
  match v with
  | VStr s => Ok (PyStr.lower s)
  | _ => Raise (AttributeError
                  ("'" ++ type_name v ++ "' object has no attribute 'lower'"))
  end.

Definition _simple_triage (description : pyval) : result string :=
  let emergency_keywords := ["emergency"; "urgent"; "critical"; "severe"] in
  lowered <- method_lower description ;;
  if PyStr.any_in emergency_keywords lowered then Ok "high" else Ok "medium".

Definition _simple_service_match (description : pyval) : result string :=
  lowered <- method_lower description ;;
  if PyStr.any_in ["medical"; "health"; "doctor"] lowered
  then Ok "medical" else Ok "general".

Definition process_case_offline (case_data : pydict) : result pydict :=
  description <- dict_item case_data "description" ;;
  urgency <- _simple_triage description ;;
  description <- dict_item case_data "description" ;;
  service_type <- _simple_service_match description ;;
  Ok [("urgency", VStr urgency);
      ("recommended_service", VStr service_type);
      ("message", VStr "Processed in offline mode with simplified logic");
      ("next_steps",
       VStr "Please visit the nearest service center or call when connection is restored")].

(** ** [app.py]: the connection manager *)

Module App.

(** A [WebSocket] object is known by its identity.  [Net] is the world
    outside: the sockets whose peer is gone, on which [send_text]
    raises, and what was delivered so far, in order.  The log keeps the
    message whose [json.dumps] text was sent. *)
Definition WebSocket := Z.

Record Net := mkNet {
  closed : list WebSocket;
  delivered : list (WebSocket * pydict) }.

Record ConnectionManager := mkManager {
  active_connections : list WebSocket;
  case_subscribers : list (Z * list WebSocket) }.

Definition mem (ws : WebSocket) (l : list WebSocket) : bool :=
  existsb (Z.eqb ws) l.

(** [l.remove(ws)]: the first occurrence goes *)
Fixpoint remove_first (ws : WebSocket) (l : list WebSocket) : list WebSocket :=
  match l with
  | [] => []
  | x :: r => if x =? ws then r else x :: remove_first ws r
  end.

Fixpoint subscribers (case_id : Z) (d : list (Z * list WebSocket))
    : option (list WebSocket) :=
  match d with
  | [] => None
  | (k, l) :: r => if k =? case_id then Some l else subscribers case_id r
  end.

Fixpoint append_subscriber (case_id : Z) (ws : WebSocket)
    (d : list (Z * list WebSocket)) : list (Z * list WebSocket) :=
  match d with
  | [] => [(case_id, [ws])]
  | (k, l) :: r =>
      if k =? case_id then (k, (l ++ [ws])%list) :: r
      else (k, l) :: append_subscriber case_id ws r
  end.

Definition connect (websocket : WebSocket) (m : ConnectionManager)
    : ConnectionManager :=
  mkManager (active_connections m ++ [websocket]) (case_subscribers m).

Definition disconnect (websocket : WebSocket) (m : ConnectionManager)
    : ConnectionManager :=
  if mem websocket (active_connections m)
  then mkManager (remove_first websocket (active_connections m))
                 (case_subscribers m)
  else m.

Definition subscribe_to_case (case_id : Z) (websocket : WebSocket)
    (m : ConnectionManager) : ConnectionManager :=
  mkManager (active_connections m)
            (append_subscriber case_id websocket (case_subscribers m)).

Definition send_text (ws : WebSocket) (message : pydict) (net : Net)
    : result unit * Net :=
  if mem ws (closed net)
  then (Raise (RuntimeError
          ("Cannot call " ++ dq ++ "send" ++ dq
           ++ " once a close message has been sent.")), net)
  else (Ok tt, mkNet (closed net) (delivered net ++ [(ws, message)])).

(** The loop of [send_case_update].  In the [except] branch the source
    writes [await self.disconnect(connection)]: [disconnect] is a plain
    function, so it runs and returns [None], and awaiting [None] raises
    a [TypeError] from inside the handler, which leaves the loop. *)
Fixpoint send_loop (subs : list WebSocket) (message : pydict)
    (m : ConnectionManager) (net : Net) : result unit * ConnectionManager * Net :=
  match subs with
  | [] => (Ok tt, m, net)
  | connection :: rest =>
      match send_text connection message net with
      | (Ok _, net) => send_loop rest message m net
      | (Raise _, net) =>
          let m := disconnect connection m in
          (Raise (TypeError "object NoneType can't be used in 'await' expression"),
           m, net)
      end
  end.

Definition send_case_update (case_id : Z) (message : pydict)
    (m : ConnectionManager) (net : Net) : result unit * ConnectionManager * Net :=
  match subscribers case_id (case_subscribers m) with
  | Some subs => send_loop subs message m net
  | None => (Ok tt, m, net)
  end.

(** What the background task leaves behind. *)
Record TaskRun := mkTaskRun {
  task_result : result unit;
  task_case : CaseRun;
  task_manager : ConnectionManager;
  task_net : Net }.

Definition process_case_async (case_id : Z) (agent_system : FrontlineAgentSystem)
    (db : DB) (m : ConnectionManager) (net : Net) : TaskRun :=
  let run := process_case agent_system case_id false db in
  let on_error (e : exn) (m : ConnectionManager) (net : Net) : TaskRun :=
    let '(r, m, net) :=
      send_case_update case_id
        [("type", VStr "case_error"); ("case_id", VInt case_id);
         ("error", VStr (str_exn e))] m net in
    mkTaskRun r run m net in
  match returned run with
  | Raise e => on_error e m net
  | Ok result =>
      match send_case_update case_id
              [("type", VStr "case_processed"); ("case_id", VInt case_id);
               ("result", VDict result)] m net with
      | (Ok _, m, net) => mkTaskRun (Ok tt) run m net
      | (Raise e, m, net) => on_error e m net
      end
  end.

(** [POST /api/cases/offline]; an exception of the handler leaves the
    endpoint *)
Definition submit_case_offline (case_data : pydict) : result pydict :=
  result <- process_case_offline case_data ;;
  Ok [("message", VStr "Case processed in offline mode");
      ("recommendation", VDict result);
      ("next_steps",
       VStr "Please visit service center or call when connection restored")].

(** [websocket_endpoint] up to its receive loop: the socket is accepted
    and subscribed to the case *)
Definition websocket_opened (case_id : Z) (websocket : WebSocket)
    (m : ConnectionManager) : ConnectionManager :=
  subscribe_to_case case_id websocket (connect websocket m).

(** and once the loop has ended with [WebSocketDisconnect] *)
Definition websocket_endpoint (case_id : Z) (websocket : WebSocket)
    (m : ConnectionManager) : ConnectionManager :=
  disconnect websocket (websocket_opened case_id websocket m).

End App.

(** ** Notions the properties are stated with *)

(** A rule list read the way section 4.2 words it: the tier of the first
    rule one of whose keywords occurs in the text, else the default. *)
Fixpoint first_match (rules : list (string * list string)) (default : string)
    (text : string) : string :=
  match rules with
  | [] => default
  | (tier, keywords) :: rest =>
      if PyStr.any_in keywords text then tier else first_match rest default text
  end.

Definition urgency_rules : list (string * list string) :=
  [("critical", ["emergency"; "urgent"; "critical"; "severe"; "life-threatening"]);
   ("high", ["pain"; "injury"; "bleeding"; "fever"]);
   ("medium", ["appointment"; "consultation"; "check-up"])].

(** [word] occurs in [text] up to the case of the letters: some
    contiguous run of [text] lowers to the lowered [word]. *)
Definition ci_substring (word text : string) : Prop :=
  exists pre run post,
    text = pre ++ run ++ post /\ PyStr.lower run = PyStr.lower word.



(** No metrics row carries a stamp later than the clock. *)
Definition stamped_by (now : datetime) (ms : list SystemMetrics.t) : Prop :=
  forall m, In m ms -> SystemMetrics.date m <= now.

(** the metrics table after the stage *)
Definition metrics_after (now : datetime) (state : AgentState) (db : DB)
    : list SystemMetrics.t :=
  system_metrics (snd (track_metrics now state db)).

(** One stage of a linear run: call [h]; if it returns, go on with [k]. *)
Definition and_then (name : string) (h : Handler)
    (k : AgentState -> DB -> Run) : AgentState -> DB -> Run :=
  fun state db =>
    match h state db with
    | (Raise e, db') => mkRun (Raise e) db' [(name, Raise e)]
    | (Ok state', db') =>
        let r := k state' db' in
        mkRun (run_result r) (run_db r) ((name, Ok state') :: run_trace r)
    end.

(** the state a stage returned, if it returned *)
Definition returned_state (name : string)
    (trace : list (string * result AgentState)) : option AgentState :=
  match assoc name trace with
  | Some (Ok s) => Some s
  | _ => None
  end.

(** what subscripting [None] raises *)
Definition no_subscript : exn :=
  TypeError "'NoneType' object is not subscriptable".

Definition stage_names : list string :=
  ["triage"; "guidance"; "booking"; "followup"; "equity"].

(** a field of the dictionary [process_case] returned *)
Definition outcome_field (k : string) (r : CaseRun) : option pyval :=
  match returned r with
  | Ok outcome => dict_get k outcome
  | Raise _ => None
  end.

(** the stage returned and left no error message *)
Definition clean_stage (p : string * result AgentState) : bool :=
  match snd p with
  | Ok s => match error_message s with None => true | Some _ => false end
  | Raise _ => false
  end.

(** All five stages ran, each returned, none left an error message. *)
Definition clean_run (r : CaseRun) : Prop :=
  map fst (stages r) = stage_names /\
  forall name res, In (name, res) (stages r) ->
    exists s, res = Ok s /\ error_message s = None.

Definition triage_output (description : string) : pyval :=
  VDict [("urgency", VStr (_determine_urgency description));
         ("service_type", VStr (_determine_service_type description));
         ("estimated_duration",
          VInt (_estimate_duration description (_determine_urgency description)));
         ("notes", VStr ("Automated triage: " ++ _determine_urgency description
                         ++ " priority, " ++ _determine_service_type description
                         ++ " service needed"))].

(** what the later stages rely on, once Triage has run *)
Record triaged (s0 s : AgentState) (db0 db : DB) : Prop := mkTriaged {
  tr_case_id : case_id s = case_id s0;
  tr_urgency : urgency_level s = _determine_urgency (case_description s0);
  tr_output : dict_get "triage" (agent_outputs s)
              = Some (triage_output (case_description s0));
  tr_case : exists c, find (fun c => Case.id c =? case_id s0) (cases db) = Some c;
  tr_services : services db = services db0;
}.

(** ** Sample data *)

Module Sample.

(** 2026-11-03 13:30:45 *)
Definition now : datetime := 1793712645 * us_per_second.

Definition db : DB := mkDB
  [Service.mk 1 "General Hospital Emergency" MEDICAL (Some "Emergency Medicine")
              (Some "123 Medical Center Dr") (Some "555-0123") true;
   Service.mk 2 "Community Health Clinic" MEDICAL (Some "General Practice")
              (Some "456 Community Ave") (Some "555-0124") false;
   Service.mk 4 "Social Services Office" SOCIAL (Some "Social Welfare")
              (Some "321 Support St") (Some "555-0125") false]
  [Citizen.mk 1 "John Doe" (Some "john.doe@example.com") (Some "555-1001")
              (Some "123 Main St")]
  [Case.mk 1 1 "I'm experiencing severe chest pain and shortness of breath"
           (Some MEDIUM) SUBMITTED None None None None;
   Case.mk 2 1 "There is an EMERGENCY: fire in the building"
           (Some MEDIUM) SUBMITTED None None None None;
   Case.mk 3 1 "I need to schedule my annual health checkup"
           (Some MEDIUM) SUBMITTED None None None None]
  [] [] [].

(** the state Guidance returns for case 2: no emergency service exists *)
Definition guidance_failed : AgentState :=
  mkState 2
    [("name", VStr "John Doe"); ("email", VStr "john.doe@example.com");
     ("phone", VStr "555-1001"); ("address", VStr "123 Main St")]
    "There is an EMERGENCY: fire in the building"
    "critical" None None
    [HumanMessage "There is an EMERGENCY: fire in the building";
     AIMessage "Triage completed: critical priority case requiring emergency service"]
    [("triage",
      VDict [("urgency", VStr "critical");
             ("service_type", VStr "emergency");
             ("estimated_duration", VInt 60);
             ("notes", VStr "Automated triage: critical priority, emergency service needed")])]
    "triaged"
    (Some "No available services for emergency")
    false.

(** and the state Booking returns after it *)
Definition booking_failed : AgentState :=
  set_error_message (Some "Service not found") guidance_failed.


Definition assigned : AgentState :=
  set_assigned_service_id (Some 1) guidance_failed.

(** two sockets follow case 2; the peer of socket 10 is gone *)
Definition manager : App.ConnectionManager :=
  App.subscribe_to_case 2 11
    (App.connect 11
       (App.subscribe_to_case 2 10
          (App.connect 10 (App.mkManager [] [])))).

Definition net : App.Net := App.mkNet [10] [].

Definition event : pydict := [("type", VStr "case_processed"); ("case_id", VInt 2)].

End Sample.

(** ** Further notions *)

(** the keywords that make a case medical *)
Definition medical_words : list string :=
  ["medical"; "doctor"; "hospital"; "health"; "pain"; "injury"].

(** *** Sinks *)

(** the sinks registered for a case, in registration order *)
Definition case_sinks (case_id : Z) (m : App.ConnectionManager)
    : list App.WebSocket :=
  match App.subscribers case_id (App.case_subscribers m) with
  | Some l => l
  | None => []
  end.

(** every one of the sockets accepts a send *)
Definition all_open (subs : list App.WebSocket) (net : App.Net) : bool :=
  forallb (fun w => negb (App.mem w (App.closed net))) subs.

(** the first of the sockets that refuses a send, if there is one *)
Fixpoint first_closed_sink (subs : list App.WebSocket) (net : App.Net)
    : option App.WebSocket :=
  match subs with
  | [] => None
  | w :: rest =>
      if App.mem w (App.closed net) then Some w else first_closed_sink rest net
  end.

(** the sockets registered before that one *)
Fixpoint open_prefix (subs : list App.WebSocket) (net : App.Net)
    : list App.WebSocket :=
  match subs with
  | [] => []
  | w :: rest =>
      if App.mem w (App.closed net) then [] else w :: open_prefix rest net
  end.

(** the log after [message] went to each of [subs] *)
Definition delivered_to (subs : list App.WebSocket) (message : pydict)
    (net : App.Net) : App.Net :=
  App.mkNet (App.closed net)
            (App.delivered net ++ map (fun w => (w, message)) subs).

(** what [await None] raises *)
Definition await_none : exn :=
  TypeError "object NoneType can't be used in 'await' expression".

(** what the task publishes when the run has returned [result] *)
Definition processed_event (case_id : Z) (result : pydict) : pydict :=
  [("type", VStr "case_processed"); ("case_id", VInt case_id);
   ("result", VDict result)].

(** and when it has caught [e] *)
Definition error_event (case_id : Z) (e : exn) : pydict :=
  [("type", VStr "case_error"); ("case_id", VInt case_id);
   ("error", VStr (str_exn e))].

(** *** Writes of a run *)

(** [appointment_record.confirmation_sent = True] *)
Definition confirm (a : Appointment.t) : Appointment.t :=
  Appointment.mk (Appointment.id a) (Appointment.case_id a)
                 (Appointment.service_id a) (Appointment.scheduled_time a)
                 (Appointment.duration_minutes a) true
                 (Appointment.notes a) (Appointment.created_at a).

(** One write to the session on behalf of case [id] at clock [now]: the
    row of the case is rewritten, keeping its key, citizen and
    description; an update of the case is logged; an appointment of the
    case is added; the first appointment of the case is marked
    confirmed; a metrics row is added or counts one more. *)
Inductive write (now : datetime) (id : Z) (db : DB) : DB -> Prop :=
| write_case (urgency : Case.t -> option UrgencyLevel) (status : CaseStatus)
    (assigned : Case.t -> option Z) (notes : Case.t -> option string)
    (duration : Case.t -> option Z) :
    write now id db
      (with_cases db
         (update_first (fun c => Case.id c =? id)
            (fun c => Case.mk (Case.id c) (Case.citizen_id c)
                        (Case.description c) (urgency c) status (assigned c)
                        (Some now) (notes c) (duration c))
            (cases db)))
| write_update (message update_type agent_type : string) :
    write now id db (add_update now id message update_type agent_type db)
| write_appointment (service_id : Z) (scheduled : datetime) (duration : pyval)
    (notes : string) :
    write now id db
      (with_appointments db
         (appointments db ++
          [Appointment.mk (next_id Appointment.id (appointments db)) id
                          service_id scheduled duration false notes now]))
| write_confirmation :
    write now id db
      (with_appointments db
         (update_first (fun a => Appointment.case_id a =? id) confirm
                       (appointments db)))
| write_metric_row (sid : Z) :
    write now id db
      (with_system_metrics db
         (system_metrics db ++
          [SystemMetrics.mk (next_id SystemMetrics.id (system_metrics db))
                            sid now 1]))
| write_metric_count (p : SystemMetrics.t -> bool) :
    write now id db
      (with_system_metrics db
         (update_first p count_one_more (system_metrics db))).

(** A sequence of such writes. *)
Inductive writes (now : datetime) (id : Z) : DB -> DB -> Prop :=
| writes_done (db : DB) : writes now id db db
| writes_step (db db1 db2 : DB) :
    write now id db db1 -> writes now id db1 db2 -> writes now id db db2.

(** The same case rows in the same order; a row keeps its key, its
    citizen and its description, and a row of another case keeps
    everything. *)
Definition cases_kept (id : Z) (before after : list Case.t) : Prop :=
  Forall2 (fun c c' =>
             Case.id c' = Case.id c /\
             Case.citizen_id c' = Case.citizen_id c /\
             Case.description c' = Case.description c /\
             (Case.id c <> id -> c' = c))
          before after.



(** the demand counts of all the rows of a service, added up *)
Fixpoint total_demand (sid : Z) (ms : list SystemMetrics.t) : Z :=
  match ms with
  | [] => 0
  | m :: r =>
      (if SystemMetrics.service_id m =? sid then SystemMetrics.demand_count m else 0)
      + total_demand sid r
  end.

(** *** The flag [offline_mode] *)

Definition set_offline_mode (v : bool) (s : AgentState) : AgentState :=
  mkState (case_id s) (citizen_data s) (case_description s) (urgency_level s)
          (assigned_service_id s) (appointment_details s) (messages s)
          (agent_outputs s) (current_status s) (error_message s) v.

(** the same result, with the flag set in the state returned *)
Definition with_flag (v : bool) (out : result AgentState * DB)
    : result AgentState * DB :=
  (match fst out with
   | Ok s => Ok (set_offline_mode v s)
   | Raise e => Raise e
   end, snd out).

(** *** Dates *)

(** the number a digit sequence writes, most significant digit first,
    after the digits already read amount to [acc] *)
Fixpoint uint_val (acc : Z) (d : Decimal.uint) : Z :=
  match d with
  | Decimal.Nil => acc
  | Decimal.D0 l => uint_val (10 * acc) l
  | Decimal.D1 l => uint_val (10 * acc + 1) l
  | Decimal.D2 l => uint_val (10 * acc + 2) l
  | Decimal.D3 l => uint_val (10 * acc + 3) l
  | Decimal.D4 l => uint_val (10 * acc + 4) l
  | Decimal.D5 l => uint_val (10 * acc + 5) l
  | Decimal.D6 l => uint_val (10 * acc + 6) l
  | Decimal.D7 l => uint_val (10 * acc + 7) l
  | Decimal.D8 l => uint_val (10 * acc + 8) l
  | Decimal.D9 l => uint_val (10 * acc + 9) l
  end.

(** the instant of a day number and a time of day *)
Definition assemble (days hh mm ss us : Z) : datetime :=
  days * us_per_day + ((hh * 60 + mm) * 60 + ss) * us_per_second + us.

(** the check [parse_iso] makes on the fields it has read *)
Definition fields_valid (y m d hh mm ss : Z) : bool :=
  (1 <=? y) &&
  (let '(y', m', d') := civil_from_days (days_from_civil y m d) in
   (y' =? y) && (m' =? m) && (d' =? d)) &&
  (hh <? 24) && (mm <? 60) && (ss <? 60).

(** *** A successful run *)






(** * Properties *)

(** ** Strings *)

Import PyStr.

Lemma lower_app (a b : string) : lower (a ++ b) = lower a ++ lower b.
Proof.
  induction a as [|c a IH]; simpl; [reflexivity|].
  now rewrite IH.
Qed.

Lemma startswith_app (w rest : string) : startswith w (w ++ rest) = true.
Proof.
  induction w as [|c w IH]; simpl; [reflexivity|].
  now rewrite Ascii.eqb_refl, IH.
Qed.

Lemma startswith_inv (w d : string) :
  startswith w d = true -> exists rest, d = w ++ rest.
Proof.
  revert d; induction w as [|c w IH]; intros d H.
  - now exists d.
  - destruct d as [|b d]; simpl in H; [discriminate|].
    apply andb_true_iff in H as [Hc Hw].
    apply Ascii.eqb_eq in Hc; subst b.
    destruct (IH _ Hw) as [rest ->].
    now exists rest.
Qed.

Lemma str_in_startswith (w d : string) :
  startswith w d = true -> str_in w d = true.
Proof.
  intros H. destruct d; simpl; rewrite H; reflexivity.
Qed.

Lemma str_in_app (pre w post : string) : str_in w (pre ++ w ++ post) = true.
Proof.
  induction pre as [|c pre IH].
  - cbn [append]. apply str_in_startswith, startswith_app.
  - simpl. rewrite IH. apply orb_true_r.
Qed.

Lemma str_in_inv (w d : string) :
  str_in w d = true -> exists pre post, d = pre ++ w ++ post.
Proof.
  induction d as [|c d IH]; simpl; intros H.
  - rewrite orb_false_r in H.
    destruct (startswith_inv _ _ H) as [rest ->].
    now exists EmptyString, rest.
  - apply orb_true_iff in H as [H|H].
    + destruct (startswith_inv _ _ H) as [rest ->].
      now exists EmptyString, rest.
    + destruct (IH H) as (pre & post & ->).
      now exists (String c pre), post.
Qed.

(** [w in d] holds exactly when [d] is some text, then [w], then some
    text. *)
Lemma str_in_iff (w d : string) :
  str_in w d = true <-> exists pre post, d = pre ++ w ++ post.
Proof.
  split; [apply str_in_inv|].
  intros (pre & post & ->). apply str_in_app.
Qed.

Lemma str_in_ci (word text : string) :
  lower word = word -> ci_substring word text ->
  str_in word (lower text) = true.
Proof.
  intros Hw (pre & run & post & -> & Hrun).
  rewrite !lower_app, Hrun, Hw.
  apply str_in_app.
Qed.

Lemma any_in_intro (words : list string) (word text : string) :
  In word words -> str_in word text = true -> any_in words text = true.
Proof.
  intros Hin Hs. unfold any_in.
  apply existsb_exists. now exists word.
Qed.

(** ** Triage *)

Lemma critical_words_lower (word : string) :
  In word critical_words -> lower word = word.
Proof.
  unfold critical_words; simpl.
  intros [<-|[<-|[<-|[<-|[<-|[]]]]]]; reflexivity.
Qed.

Lemma _determine_urgency_values (d : string) :
  _determine_urgency d = "critical" \/ _determine_urgency d = "high" \/
  _determine_urgency d = "medium" \/ _determine_urgency d = "low".
Proof.
  unfold _determine_urgency.
  destruct (any_in critical_words _); [now left|].
  destruct (any_in high_words _); [now right; left|].
  destruct (any_in medium_words _); [now right; right; left|].
  now right; right; right.
Qed.

Lemma UrgencyLevel_of_determine (d : string) :
  exists level, UrgencyLevel_of (_determine_urgency d) = Ok level.
Proof.
  destruct (_determine_urgency_values d) as [E|[E|[E|E]]]; rewrite E;
    eexists; reflexivity.
Qed.

Lemma ServiceType_of_determine (d : string) :
  exists wanted, ServiceType_of (VStr (_determine_service_type d)) = Ok wanted.
Proof.
  unfold _determine_service_type.
  repeat match goal with
         | |- context [if ?b then _ else _] => destruct b
         end; eexists; reflexivity.
Qed.

(** Scenario A of section 8. *)
Example scenario_A :
  let d := "I'm experiencing severe chest pain and shortness of breath" in
  _determine_urgency d = "critical" /\
  _determine_service_type d = "medical" /\
  _estimate_duration d (_determine_urgency d) = 60 /\
  _find_next_slot 0 (Service.mk 1 "" MEDICAL None None None true)
    (_determine_urgency d) = Ok (timedelta 0 1).
Proof.
  repeat split.
Qed.

(** C3. Triage's urgency is the first-match-wins reading of the rule
    list critical, high, medium over the lowered description, low when
    no rule matches; and a description in which one of "emergency",
    "urgent", "critical", "severe", "life-threatening" occurs, in any
    letter case, is classified critical whatever else it contains. *)
Theorem C3_urgency_first_match :
  (forall description,
     _determine_urgency description
     = first_match urgency_rules "low" (lower description)) /\
  (forall description word,
     In word ["emergency"; "urgent"; "critical"; "severe"; "life-threatening"] ->
     ci_substring word description ->
     _determine_urgency description = "critical").
Proof.
  split.
  - intros description. reflexivity.
  - intros description word Hin Hci.
    unfold _determine_urgency.
    rewrite (any_in_intro critical_words word); [reflexivity|exact Hin|].
    apply str_in_ci; [|exact Hci].
    now apply critical_words_lower.
Qed.

Lemma C3_urgency_first_match_witness :
  ci_substring "urgent" "Not URGENT, just a check-up for my fever" /\
  _determine_urgency "Not URGENT, just a check-up for my fever" = "critical".
Proof.
  assert (H : ci_substring "urgent" "Not URGENT, just a check-up for my fever").
  { exists "Not ", "URGENT", ", just a check-up for my fever".
    split; reflexivity. }
  split; [exact H|].
  apply (proj2 C3_urgency_first_match _ "urgent"); [|exact H].
  simpl; auto.
Defined.

(** C9. On "I need to schedule my annual health checkup" the urgency
    rule answers low, not medium: matching is plain substring
    containment, the unhyphenated "checkup" does not contain the keyword
    "check-up", and no other keyword occurs; with the hyphen written the
    same sentence is classified medium. *)
Theorem C9_checkup_is_low :
  _determine_urgency "I need to schedule my annual health checkup" = "low" /\
  str_in "check-up" (lower "I need to schedule my annual health checkup") = false /\
  str_in "check-up" "checkup" = false /\
  _determine_urgency "I need to schedule my annual health check-up" = "medium".
Proof.
  repeat split; vm_compute; reflexivity.
Qed.

Lemma C9_checkup_not_medium :
  _determine_urgency "I need to schedule my annual health checkup" <> "medium".
Proof.
  vm_compute. discriminate.
Qed.

(** ** Dictionaries and tables *)

Lemma dict_get_set_same (k : string) (v : pyval) (d : pydict) :
  dict_get k (dict_set k v d) = Some v.
Proof.
  induction d as [|[k' v'] d IH]; simpl.
  - now rewrite String.eqb_refl.
  - destruct (String.eqb k k') eqn:E; simpl; rewrite E; [reflexivity|exact IH].
Qed.

Lemma dict_get_set_other (k k' : string) (v : pyval) (d : pydict) :
  String.eqb k k' = false ->
  dict_get k (dict_set k' v d) = dict_get k d.
Proof.
  intros Hk. induction d as [|[k0 v0] d IH]; simpl.
  - now rewrite Hk.
  - destruct (String.eqb k' k0) eqn:E; simpl.
    + apply String.eqb_eq in E; subst k0. now rewrite Hk.
    + now rewrite IH.
Qed.

Lemma find_update_first {A} (p : A -> bool) (f : A -> A) (rows : list A) :
  (forall x, p x = true -> p (f x) = true) ->
  find p (update_first p f rows) = option_map f (find p rows).
Proof.
  intros Hp. induction rows as [|r rs IH]; simpl; [reflexivity|].
  destruct (p r) eqn:E; simpl.
  - now rewrite (Hp _ E).
  - now rewrite E.
Qed.

(** ** The stage handlers, one at a time *)

Lemma analyze_case_found (now : datetime) (s : AgentState) (db : DB) (c : Case.t) :
  find (fun c => Case.id c =? case_id s) (cases db) = Some c ->
  exists s1 db1,
    analyze_case now s db = (Ok s1, db1) /\
    triaged s s1 db db1 /\
    error_message s1 = error_message s /\
    assigned_service_id s1 = assigned_service_id s /\
    appointment_details s1 = appointment_details s /\
    current_status s1 = "triaged" /\
    appointments db1 = appointments db /\
    system_metrics db1 = system_metrics db.
Proof.
  intros Hfind. unfold analyze_case. rewrite Hfind.
  destruct (UrgencyLevel_of_determine (case_description s)) as [level ->].
  do 2 eexists. split; [reflexivity|].
  split; [|repeat split].
  constructor; try reflexivity.
  - apply dict_get_set_same.
  - cbn [cases add_update with_cases].
    rewrite find_update_first, Hfind; [eexists; reflexivity|].
    intros x Hx; exact Hx.
Qed.

Lemma match_service_triaged (now : datetime) (s0 s : AgentState) (db0 db : DB)
    (wanted : ServiceType) :
  triaged s0 s db0 db ->
  ServiceType_of (VStr (_determine_service_type (case_description s0))) = Ok wanted ->
  match service_query (urgency_level s) wanted db with
  | [] =>
      match_service now s db
      = (Ok (set_error_message
               (Some ("No available services for "
                      ++ _determine_service_type (case_description s0))) s), db)
  | sel :: _ =>
      exists s2 db2,
        match_service now s db = (Ok s2, db2) /\
        triaged s0 s2 db0 db2 /\
        error_message s2 = error_message s /\
        assigned_service_id s2 = Some (Service.id sel) /\
        appointment_details s2 = appointment_details s /\
        current_status s2 = "assigned" /\
        appointments db2 = appointments db /\
        system_metrics db2 = system_metrics db
  end.
Proof.
  intros [Hid Hurg Hout [c Hc] Hsvc] Hwanted.
  assert (Hsub : subscript (triage_output (case_description s0)) "service_type"
                 = Ok (VStr (_determine_service_type (case_description s0))))
    by reflexivity.
  unfold match_service, dict_item. rewrite Hout.
  cbn [rbind]. rewrite Hsub, Hwanted.
  destruct (service_query _ _ _) as [|sel rest]; [reflexivity|].
  rewrite Hid, Hc.
  do 2 eexists. split; [reflexivity|].
  split; [|repeat split].
  constructor; try assumption; try reflexivity.
  - cbn. rewrite dict_get_set_other by reflexivity. exact Hout.
  - cbn [cases add_update with_cases].
    rewrite find_update_first, Hc; [eexists; reflexivity|].
    intros x Hx; exact Hx.
Qed.

Lemma triaged_set_error (s0 s : AgentState) (db0 db : DB) (v : option string) :
  triaged s0 s db0 db -> triaged s0 (set_error_message v s) db0 db.
Proof.
  intros [Hid Hurg Hout Hc Hsvc]. constructor; assumption.
Qed.

Lemma book_appointment_triaged (now : datetime) (s0 s : AgentState) (db0 db : DB) :
  triaged s0 s db0 db ->
  match service_by_id (assigned_service_id s) db with
  | None =>
      book_appointment now s db
      = (Ok (set_error_message (Some "Service not found") s), db)
  | Some service =>
      match _find_next_slot now service (urgency_level s) with
      | Raise e => book_appointment now s db = (Raise e, db)
      | Ok _ =>
          exists s3 db3,
            book_appointment now s db = (Ok s3, db3) /\
            triaged s0 s3 db0 db3 /\
            error_message s3 = error_message s /\
            assigned_service_id s3 = assigned_service_id s /\
            current_status s3 = "scheduled" /\
            (exists a, appointments db3 = (appointments db ++ [a])%list
                       /\ Appointment.case_id a = case_id s0) /\
            system_metrics db3 = system_metrics db
      end
  end.
Proof.
  intros [Hid Hurg Hout [c Hc] Hsvc].
  assert (Hsub : subscript (triage_output (case_description s0)) "estimated_duration"
                 = Ok (VInt (_estimate_duration (case_description s0)
                               (_determine_urgency (case_description s0)))))
    by reflexivity.
  unfold book_appointment, dict_item. rewrite Hout.
  cbn [rbind]. rewrite Hsub.
  destruct (service_by_id _ _) as [svc|]; [|reflexivity].
  destruct (_find_next_slot now svc (urgency_level s)) as [slot|e]; [|reflexivity].
  cbn [cases with_appointments].
  rewrite Hid, Hc.
  do 2 eexists. split; [reflexivity|].
  split; [|repeat split].
  - constructor; try assumption; try reflexivity.
    + cbn. rewrite dict_get_set_other by reflexivity. exact Hout.
    + cbn [cases add_update with_cases].
      rewrite find_update_first, Hc; [eexists; reflexivity|].
      intros x Hx; exact Hx.
  - eexists. split; reflexivity.
Qed.

Lemma send_confirmation_none (now : datetime) (s : AgentState) (db : DB) :
  appointment_details s = None ->
  send_confirmation now s db
  = (Raise (TypeError "'NoneType' object is not subscriptable"), db).
Proof.
  intros H. unfold send_confirmation. now rewrite H.
Qed.

Lemma send_confirmation_cases (now : datetime) (s : AgentState) (db : DB) :
  (exists e, send_confirmation now s db = (Raise e, db)) \/
  (exists s4 db4,
     send_confirmation now s db = (Ok s4, db4) /\
     error_message s4 = error_message s /\
     current_status s4 = current_status s /\
     assigned_service_id s4 = assigned_service_id s).
Proof.
  unfold send_confirmation.
  destruct (_generate_confirmation_message _ _) as [text|e].
  - right. do 2 eexists. repeat split.
  - left. now exists e.
Qed.

Lemma track_metrics_returns (now : datetime) (s : AgentState) (db : DB) :
  exists s5 db5,
    track_metrics now s db = (Ok s5, db5) /\
    error_message s5 = error_message s /\
    current_status s5 = current_status s.
Proof.
  unfold track_metrics. do 2 eexists. repeat split.
Qed.

Lemma ainvoke_workflow (now : datetime) (s : AgentState) (db : DB) :
  ainvoke (_create_workflow now) s db
  = and_then "triage" (analyze_case now)
      (and_then "guidance" (match_service now)
         (and_then "booking" (book_appointment now)
            (and_then "followup" (send_confirmation now)
               (and_then "equity" (track_metrics now)
                  (fun s db => mkRun (Ok s) db []))))) s db.
Proof.
  reflexivity.
Qed.

Lemma service_query_services (u : string) (w : ServiceType) (db db' : DB) :
  services db' = services db -> service_query u w db' = service_query u w db.
Proof.
  intros H. unfold service_query. now rewrite H.
Qed.

Lemma service_query_In (u : string) (w : ServiceType) (db : DB) (x : Service.t) :
  In x (service_query u w db) ->
  In x (services db) /\ Service.type x = w /\
  (u = "critical" \/ u = "high" -> Service.is_emergency x = true).
Proof.
  unfold service_query. intros H.
  assert (Hty : forall a b, ServiceType_eqb a b = true -> a = b).
  { intros [] []; simpl; congruence. }
  destruct (existsb (String.eqb u) ["critical"; "high"]) eqn:E.
  - apply filter_In in H as [H He]. apply filter_In in H as [H Ht].
    auto.
  - apply filter_In in H as [H Ht].
    repeat split; auto.
    intros [->| ->]; discriminate.
Qed.

Lemma service_by_id_In (db : DB) (x : Service.t) :
  In x (services db) -> service_by_id (Some (Service.id x)) db <> None.
Proof.
  intros Hin Hnone. unfold service_by_id in Hnone.
  pose proof (find_none _ _ Hnone x Hin) as H. cbn in H.
  now rewrite Z.eqb_refl in H.
Qed.

Lemma run_shape (now : datetime) (id : Z) (off : bool) (db : DB)
    (c : Case.t) (z : Citizen.t) :
  find (fun c => Case.id c =? id) (cases db) = Some c ->
  let s0 := initial_state id off c z in
  let r := ainvoke (_create_workflow now) s0 db in
  let st := _determine_service_type (Case.description c) in
  exists s1 db1 wanted,
    analyze_case now s0 db = (Ok s1, db1) /\
    ServiceType_of (VStr st) = Ok wanted /\
    error_message s1 = None /\
    current_status s1 = "triaged" /\
    assigned_service_id s1 = None /\
    appointments db1 = appointments db /\
    match service_query (_determine_urgency (Case.description c)) wanted db with
    | [] =>
        let s2 := set_error_message (Some ("No available services for " ++ st)) s1 in
        let s3 := set_error_message (Some "Service not found") s2 in
        run_trace r = [("triage", Ok s1); ("guidance", Ok s2); ("booking", Ok s3);
                       ("followup", Raise no_subscript)] /\
        run_result r = Raise no_subscript /\
        run_db r = db1
    | sel :: _ =>
        exists s2,
          error_message s2 = None /\
          assigned_service_id s2 = Some (Service.id sel) /\
          ((exists e,
              run_trace r = [("triage", Ok s1); ("guidance", Ok s2);
                             ("booking", Raise e)] /\
              run_result r = Raise e) \/
           (exists s3,
              error_message s3 = None /\
              current_status s3 = "scheduled" /\
              ((exists e,
                  run_trace r = [("triage", Ok s1); ("guidance", Ok s2);
                                 ("booking", Ok s3); ("followup", Raise e)] /\
                  run_result r = Raise e) \/
               (exists s4 s5,
                  run_trace r = [("triage", Ok s1); ("guidance", Ok s2);
                                 ("booking", Ok s3); ("followup", Ok s4);
                                 ("equity", Ok s5)] /\
                  error_message s4 = None /\
                  error_message s5 = None /\
                  current_status s5 = "scheduled" /\
                  run_result r = Ok s5))))
    end.
Proof.
  intros Hc s0 r st.
  destruct (analyze_case_found now s0 db c Hc)
    as (s1 & db1 & E1 & T1 & He1 & Ha1 & Hd1 & Hs1 & Hap1 & Hm1).
  destruct (ServiceType_of_determine (Case.description c)) as [wanted Hw].
  exists s1, db1, wanted.
  repeat (split; [assumption || reflexivity|]).
  pose proof (match_service_triaged now s0 s1 db db1 wanted T1 Hw) as G.
  rewrite (service_query_services _ _ db db1 (tr_services _ _ _ _ T1)) in G.
  rewrite (tr_urgency _ _ _ _ T1) in G.
  change (case_description s0) with (Case.description c) in G.
  destruct (service_query _ _ _) as [|sel rest] eqn:Q.
  - set (s2 := set_error_message _ s1) in *.
    pose proof (book_appointment_triaged now s0 s2 db db1
                  (triaged_set_error _ _ _ _ _ T1)) as B.
    change (assigned_service_id s2) with (assigned_service_id s1) in B.
    rewrite Ha1 in B. cbn [assigned_service_id s0 initial_state service_by_id] in B.
    set (s3 := set_error_message _ s2) in *.
    assert (F : send_confirmation now s3 db1 = (Raise no_subscript, db1)).
    { apply send_confirmation_none.
      change (appointment_details s3) with (appointment_details s1).
      now rewrite Hd1. }
    cbv zeta. unfold r. rewrite ainvoke_workflow.
    unfold and_then. rewrite E1, G, B, F. cbn. auto.
  - destruct G as (s2 & db2 & G & T2 & He2 & Ha2 & Hd2 & Hs2 & Hap2 & Hm2).
    pose proof (book_appointment_triaged now s0 s2 db db2 T2) as B.
    rewrite Ha2 in B.
    destruct (service_by_id (Some (Service.id sel)) db2) as [svc|] eqn:S.
    2:{ exfalso. apply (service_by_id_In db2 sel); [|exact S].
        rewrite (tr_services _ _ _ _ T2).
        apply (service_query_In (_determine_urgency (Case.description c)) wanted).
        rewrite Q. now left. }
    assert (En2 : error_message s2 = None) by now rewrite He2, He1.
    exists s2.
    repeat (split; [assumption|]).
    unfold r. rewrite ainvoke_workflow.
    unfold and_then. rewrite E1, G.
    destruct (_find_next_slot now svc (urgency_level s2)) as [slot|e].
    2:{ rewrite B. left. exists e. cbn. auto. }
    destruct B as (s3 & db3 & B & T3 & He3 & Ha3 & Hs3 & Hap3 & Hm3).
    assert (En3 : error_message s3 = None) by now rewrite He3.
    right. exists s3.
    repeat (split; [assumption|]).
    rewrite B.
    destruct (send_confirmation_cases now s3 db3)
      as [(e & F)|(s4 & db4 & F & He4 & Hs4 & Ha4)]; rewrite F.
    + left. exists e. cbn. auto.
    + right.
      destruct (track_metrics_returns now s4 db4) as (s5 & db5 & M & He5 & Hs5).
      exists s4, s5. cbv beta iota zeta. rewrite M. cbn.
      repeat split; congruence.
Qed.

Lemma process_case_found (now : datetime) (id : Z) (off : bool) (db : DB)
    (c : Case.t) (z : Citizen.t) :
  find (fun c => Case.id c =? id) (cases db) = Some c ->
  find (fun x => Citizen.id x =? Case.citizen_id c) (citizens db) = Some z ->
  let r := ainvoke (_create_workflow now) (initial_state id off c z) db in
  stages (process_case (new_system now) id off db) = run_trace r /\
  final_db (process_case (new_system now) id off db) = run_db r /\
  returned (process_case (new_system now) id off db)
  = match run_result r with
    | Ok final_state => Ok (success_outcome id final_state)
    | Raise e => Ok (failure_outcome id e)
    end.
Proof.
  intros Hc Hz r. unfold process_case. rewrite Hc, Hz.
  cbn [workflow new_system]. fold r.
  destruct (run_result r); repeat split.
Qed.

Lemma process_case_no_stage (self : FrontlineAgentSystem) (id : Z) (off : bool)
    (db : DB) :
  find (fun c => Case.id c =? id) (cases db) = None \/
  (exists c, find (fun c => Case.id c =? id) (cases db) = Some c /\
             find (fun x => Citizen.id x =? Case.citizen_id c) (citizens db) = None) ->
  stages (process_case self id off db) = [] /\
  final_db (process_case self id off db) = db.
Proof.
  unfold process_case. intros [->|(c & -> & ->)]; split; reflexivity.
Qed.

(** Either the case and its citizen are found, or no stage runs. *)
Lemma process_case_split (self : FrontlineAgentSystem) (id : Z) (off : bool)
    (db : DB) :
  (exists c z,
     find (fun c => Case.id c =? id) (cases db) = Some c /\
     find (fun x => Citizen.id x =? Case.citizen_id c) (citizens db) = Some z) \/
  (stages (process_case self id off db) = [] /\
   final_db (process_case self id off db) = db).
Proof.
  destruct (find (fun c => Case.id c =? id) (cases db)) as [c|] eqn:Hc.
  - destruct (find (fun x => Citizen.id x =? Case.citizen_id c) (citizens db))
      as [z|] eqn:Hz.
    + left. now exists c, z.
    + right. apply process_case_no_stage. right. now exists c.
  - right. apply process_case_no_stage. now left.
Qed.

(** ** The pipeline *)

(** The one way a stage of a run returns with an error message set. *)
Lemma error_run_shape (now : datetime) (id : Z) (off : bool) (db : DB)
    (name : string) (s : AgentState) :
  let r := process_case (new_system now) id off db in
  In (name, Ok s) (stages r) ->
  error_message s <> None ->
  exists c z s1 db1,
    find (fun c => Case.id c =? id) (cases db) = Some c /\
    find (fun x => Citizen.id x =? Case.citizen_id c) (citizens db) = Some z /\
    analyze_case now (initial_state id off c z) db = (Ok s1, db1) /\
    error_message s1 = None /\
    current_status s1 = "triaged" /\
    appointments db1 = appointments db /\
    let s2 := set_error_message
                (Some ("No available services for "
                       ++ _determine_service_type (Case.description c))) s1 in
    let s3 := set_error_message (Some "Service not found") s2 in
    stages r = [("triage", Ok s1); ("guidance", Ok s2); ("booking", Ok s3);
                ("followup", Raise no_subscript)] /\
    returned r = Ok (failure_outcome id no_subscript) /\
    final_db r = db1.
Proof.
  intros r Hin Herr.
  destruct (process_case_split (new_system now) id off db)
    as [(c & z & Hc & Hz)|[Hnil _]].
  2:{ fold r in Hnil. rewrite Hnil in Hin. destruct Hin. }
  destruct (process_case_found now id off db c z Hc Hz) as (Hst & Hdb & Hret).
  fold r in Hst, Hdb, Hret.
  destruct (run_shape now id off db c z Hc)
    as (s1 & db1 & wanted & E1 & Hw & He1 & Hs1 & Ha1 & Hap1 & Hq).
  rewrite Hst in Hin |- *. rewrite Hret, Hdb.
  destruct (service_query _ _ _) as [|sel rest].
  - destruct Hq as (Htr & Hres & Hrdb).
    rewrite Htr, Hres, Hrdb.
    exists c, z, s1, db1. repeat split; assumption.
  - exfalso.
    destruct Hq as (s2 & He2 & Ha2 & Hq).
    destruct Hq as [(e & Htr & _)|(s3 & He3 & Hs3 & Hq)].
    + rewrite Htr in Hin; simpl in Hin;
        repeat (destruct Hin as [Hin|Hin];
                [inversion Hin; subst; contradiction|]);
        try (destruct Hin as [Hin|Hin]; [discriminate|]); destruct Hin.
    + destruct Hq as [(e & Htr & _)|(s4 & s5 & Htr & He4 & He5 & _)];
        rewrite Htr in Hin; simpl in Hin;
        repeat (destruct Hin as [Hin|Hin];
                [inversion Hin; subst; contradiction|]);
        try (destruct Hin as [Hin|Hin]; [discriminate|]); destruct Hin.
Qed.

(** C1. When a stage handler sets [error_message] the engine does not
    stop: the edges of the workflow are unconditional and the next
    handler is called.  In every such run Guidance is the handler that
    first sets it (no matching service); it and Booking, which then
    finds no service and sets "Service not found", leave the status at
    "triaged"; Followup is called next and raises on the missing
    appointment details, which ends the run before EquityTracking, and
    [process_case] returns the failure outcome. *)
Theorem C1_error_does_not_stop_engine (now : datetime) (id : Z) (off : bool)
    (db : DB) (name : string) (s : AgentState) :
  let r := process_case (new_system now) id off db in
  In (name, Ok s) (stages r) ->
  error_message s <> None ->
  exists s1 s2 s3,
    stages r = [("triage", Ok s1); ("guidance", Ok s2); ("booking", Ok s3);
                ("followup", Raise no_subscript)] /\
    error_message s1 = None /\
    (exists service_type,
       error_message s2 = Some ("No available services for " ++ service_type)) /\
    error_message s3 = Some "Service not found" /\
    current_status s1 = "triaged" /\
    current_status s2 = "triaged" /\
    current_status s3 = "triaged" /\
    returned r = Ok (failure_outcome id no_subscript).
Proof.
  intros r Hin Herr.
  destruct (error_run_shape now id off db name s Hin Herr)
    as (c & z & s1 & db1 & _ & _ & _ & He1 & Hs1 & _ & Hst & Hret & _).
  fold r in Hst, Hret.
  do 3 eexists. split; [exact Hst|].
  repeat split; try assumption.
  eexists; reflexivity.
Qed.

Lemma C1_error_does_not_stop_engine_witness :
  exists s3,
    nth_error (stages (process_case (new_system Sample.now) 2 false Sample.db)) 2
    = Some ("booking", Ok s3) /\
    error_message s3 = Some "Service not found".
Proof.
  destruct (C1_error_does_not_stop_engine Sample.now 2 false Sample.db
              "guidance" Sample.guidance_failed)
    as (s1 & s2 & s3 & Hst & _ & _ & He3 & _).
  - vm_compute. right. left. reflexivity.
  - vm_compute. discriminate.
  - exists s3. rewrite Hst. split; [reflexivity|exact He3].
Defined.

(** The run of sample case 2: Guidance sets the error message, the
    status it leaves is "triaged", and Booking and Followup are called
    after it. *)
Lemma C1_engine_runs_past_error :
  let r := process_case (new_system Sample.now) 2 false Sample.db in
  map fst (stages r) = ["triage"; "guidance"; "booking"; "followup"] /\
  returned_state "guidance" (stages r) = Some Sample.guidance_failed /\
  error_message Sample.guidance_failed
  = Some "No available services for emergency" /\
  current_status Sample.guidance_failed = "triaged".
Proof.
  repeat split; vm_compute; reflexivity.
Qed.

(** C2. When all five stages run, each returns and none leaves an error
    message, the outcome of [process_case] reports success with final
    status "scheduled", the status Booking set: neither Followup nor
    EquityTracking changes it, and nothing sets "completed". *)
Theorem C2_clean_run_ends_scheduled (now : datetime) (id : Z) (off : bool)
    (db : DB) :
  let r := process_case (new_system now) id off db in
  clean_run r ->
  outcome_field "success" r = Some (VBool true) /\
  outcome_field "final_status" r = Some (VStr "scheduled").
Proof.
  intros r [Hnames Hclean].
  destruct (process_case_split (new_system now) id off db)
    as [(c & z & Hc & Hz)|[Hnil _]].
  2:{ fold r in Hnil. rewrite Hnil in Hnames. discriminate. }
  destruct (process_case_found now id off db c z Hc Hz) as (Hst & Hdb & Hret).
  fold r in Hst, Hdb, Hret.
  destruct (run_shape now id off db c z Hc)
    as (s1 & db1 & wanted & E1 & Hw & He1 & Hs1 & Ha1 & Hap1 & Hq).
  rewrite Hst in Hnames. unfold outcome_field. rewrite Hret.
  destruct (service_query _ _ _) as [|sel rest].
  - destruct Hq as (Htr & _). rewrite Htr in Hnames. discriminate.
  - destruct Hq as (s2 & He2 & Ha2 & Hq).
    destruct Hq as [(e & Htr & _)|(s3 & He3 & Hs3 & Hq)].
    { rewrite Htr in Hnames. discriminate. }
    destruct Hq as [(e & Htr & _)|(s4 & s5 & Htr & He4 & He5 & Hs5 & Hres)].
    + rewrite Htr in Hnames. discriminate.
    + rewrite Hres. split; [reflexivity|].
      cbn. now rewrite Hs5.
Qed.

Lemma clean_run_intro (r : CaseRun) :
  map fst (stages r) = stage_names ->
  forallb clean_stage (stages r) = true ->
  clean_run r.
Proof.
  intros Hnames Hall. split; [exact Hnames|].
  intros name res Hin.
  rewrite forallb_forall in Hall. specialize (Hall _ Hin).
  unfold clean_stage in Hall. cbn [snd] in Hall.
  destruct res as [s|e]; [|discriminate].
  exists s. split; [reflexivity|].
  destruct (error_message s); [discriminate|reflexivity].
Qed.

Lemma sample_case_1_clean :
  clean_run (process_case (new_system Sample.now) 1 false Sample.db).
Proof.
  apply clean_run_intro; vm_compute; reflexivity.
Qed.

Lemma C2_clean_run_ends_scheduled_witness :
  clean_run (process_case (new_system Sample.now) 1 false Sample.db) /\
  outcome_field "final_status"
    (process_case (new_system Sample.now) 1 false Sample.db)
  = Some (VStr "scheduled").
Proof.
  split; [exact sample_case_1_clean|].
  apply (C2_clean_run_ends_scheduled Sample.now 1 false Sample.db).
  exact sample_case_1_clean.
Defined.

(** Sample case 1 runs all five stages cleanly, and the final status it
    reports is "scheduled", not "completed". *)
Lemma C2_clean_run_not_completed :
  let r := process_case (new_system Sample.now) 1 false Sample.db in
  clean_run r /\
  outcome_field "final_status" r = Some (VStr "scheduled") /\
  outcome_field "final_status" r <> Some (VStr "completed").
Proof.
  split; [exact sample_case_1_clean|].
  split; [vm_compute; reflexivity|].
  vm_compute. discriminate.
Qed.

(** C4. In a run whose urgency is high or critical, Guidance looks only
    at the services of the wanted type whose emergency flag is set: it
    assigns the first of them, and it sets the error message "No
    available services for <type>" exactly when there is none.  The
    pipeline is not halted there: Booking and Followup are still
    called. *)
Theorem C4_guidance_emergency_only (now : datetime) (id : Z) (off : bool)
    (db : DB) (c : Case.t) (z : Citizen.t) :
  find (fun c => Case.id c =? id) (cases db) = Some c ->
  find (fun x => Citizen.id x =? Case.citizen_id c) (citizens db) = Some z ->
  _determine_urgency (Case.description c) = "high" \/
  _determine_urgency (Case.description c) = "critical" ->
  let r := process_case (new_system now) id off db in
  let service_type := _determine_service_type (Case.description c) in
  exists wanted s1 s2 rest,
    ServiceType_of (VStr service_type) = Ok wanted /\
    stages r = ("triage", Ok s1) :: ("guidance", Ok s2) :: rest /\
    match filter Service.is_emergency
            (filter (fun s => ServiceType_eqb (Service.type s) wanted)
                    (services db)) with
    | [] =>
        error_message s2 = Some ("No available services for " ++ service_type) /\
        assigned_service_id s2 = None /\
        map fst rest = ["booking"; "followup"]
    | selected :: _ =>
        error_message s2 = None /\
        assigned_service_id s2 = Some (Service.id selected) /\
        Service.is_emergency selected = true /\
        Service.type selected = wanted /\
        In selected (services db)
    end.
Proof.
  intros Hc Hz Hu r service_type.
  destruct (process_case_found now id off db c z Hc Hz) as (Hst & _ & _).
  fold r in Hst.
  destruct (run_shape now id off db c z Hc)
    as (s1 & db1 & wanted & E1 & Hw & He1 & Hs1 & Ha1 & Hap1 & Hq).
  assert (Q : service_query (_determine_urgency (Case.description c)) wanted db
              = filter Service.is_emergency
                  (filter (fun s => ServiceType_eqb (Service.type s) wanted)
                          (services db))).
  { unfold service_query. destruct Hu as [-> | ->]; reflexivity. }
  exists wanted, s1.
  pose proof (service_query_In (_determine_urgency (Case.description c)) wanted db)
    as HIn.
  rewrite Q in Hq, HIn. rewrite Hst.
  destruct (filter Service.is_emergency _) as [|sel more].
  - destruct Hq as (Htr & _). rewrite Htr.
    do 2 eexists. split; [exact Hw|]. split; [reflexivity|].
    repeat split. exact Ha1.
  - destruct Hq as (s2 & He2 & Ha2 & Hq).
    destruct (HIn sel (or_introl eq_refl)) as (Hin & Hty & Hem).
    assert (Hflag : Service.is_emergency sel = true).
    { apply Hem. destruct Hu; auto. }
    destruct Hq as [(e & Htr & _)
                   |(s3 & _ & _ & [(e & Htr & _)|(s4 & s5 & Htr & _)])];
      rewrite Htr;
      exists s2; eexists; (split; [exact Hw|]); (split; [reflexivity|]);
      repeat split; assumption.
Qed.

Lemma C4_guidance_emergency_only_witness :
  exists s2,
    nth_error (stages (process_case (new_system Sample.now) 1 false Sample.db)) 1
    = Some ("guidance", Ok s2) /\
    assigned_service_id s2 = Some 1.
Proof.
  destruct (C4_guidance_emergency_only Sample.now 1 false Sample.db
              (Case.mk 1 1 "I'm experiencing severe chest pain and shortness of breath"
                       (Some MEDIUM) SUBMITTED None None None None)
              (Citizen.mk 1 "John Doe" (Some "john.doe@example.com")
                          (Some "555-1001") (Some "123 Main St")))
    as (wanted & s1 & s2 & rest & Hw & Hst & Hsel).
  - reflexivity.
  - reflexivity.
  - right. vm_compute. reflexivity.
  - exists s2. rewrite Hst. split; [reflexivity|].
    revert Hw. vm_compute. intros Hw. injection Hw as <-.
    revert Hsel. vm_compute. intros Hsel. apply Hsel.
Defined.

(** Sample case 2 is critical and asks for an emergency service, of which
    there is none: Guidance sets the error message, and Booking is still
    called and returns. *)
Lemma C4_pipeline_not_halted :
  let r := process_case (new_system Sample.now) 2 false Sample.db in
  option_map (fun c => _determine_urgency (Case.description c))
    (find (fun c => Case.id c =? 2) (cases Sample.db)) = Some "critical" /\
  returned_state "guidance" (stages r) = Some Sample.guidance_failed /\
  error_message Sample.guidance_failed
  = Some "No available services for emergency" /\
  returned_state "booking" (stages r) = Some Sample.booking_failed.
Proof.
  repeat split; vm_compute; reflexivity.
Qed.

(** C5. In a run in which a stage returns with an error message set (it
    is Guidance that fails first, leaving no service assigned) no
    appointment is created: the appointments are those the run started
    with, and the session ends as Triage left it, so neither Booking,
    the stage after Guidance, nor Followup, the stage after Booking,
    has written anything. *)
Theorem C5_failed_stage_no_appointment (now : datetime) (id : Z) (off : bool)
    (db : DB) (name : string) (s : AgentState) :
  let r := process_case (new_system now) id off db in
  In (name, Ok s) (stages r) ->
  error_message s <> None ->
  appointments (final_db r) = appointments db /\
  exists c z,
    find (fun c => Case.id c =? id) (cases db) = Some c /\
    find (fun x => Citizen.id x =? Case.citizen_id c) (citizens db) = Some z /\
    final_db r = snd (analyze_case now (initial_state id off c z) db).
Proof.
  intros r Hin Herr.
  destruct (error_run_shape now id off db name s Hin Herr)
    as (c & z & s1 & db1 & Hc & Hz & E1 & He1 & Hs1 & Hap & Hst & _ & Hdb).
  fold r in Hst, Hdb.
  rewrite Hdb. split; [exact Hap|].
  exists c, z. rewrite E1. repeat split; assumption.
Qed.

Lemma C5_failed_stage_no_appointment_witness :
  appointments (final_db (process_case (new_system Sample.now) 2 false Sample.db))
  = appointments Sample.db.
Proof.
  apply (C5_failed_stage_no_appointment Sample.now 2 false Sample.db
           "guidance" Sample.guidance_failed).
  - vm_compute. right. left. reflexivity.
  - vm_compute. discriminate.
Defined.

(** ** The engine boundary *)

Lemma run_from_raise (limit : nat) (g : StateGraph) (node : string)
    (s : AgentState) (db : DB) (name : string) (e : exn) :
  In (name, Raise e) (run_trace (run_from limit g node s db)) ->
  run_result (run_from limit g node s db) = Raise e.
Proof.
  revert node s db.
  induction limit as [|limit IH]; intros node s db; simpl;
    destruct (String.eqb node END); simpl; try tauto.
  destruct (assoc node (nodes g)) as [handler|]; simpl; [|tauto].
  destruct (handler s db) as [[s'|e'] db']; simpl.
  - destruct (assoc node (edges g)) as [next|]; simpl.
    + intros [H|H]; [discriminate|]. now apply IH.
    + intros [H|[]]. discriminate.
  - intros [H|[]]. now injection H as _ ->.
Qed.

Lemma ainvoke_raise (g : StateGraph) (s : AgentState) (db : DB)
    (name : string) (e : exn) :
  In (name, Raise e) (run_trace (ainvoke g s db)) ->
  run_result (ainvoke g s db) = Raise e.
Proof.
  unfold ainvoke. destruct (entry_point g); [apply run_from_raise|].
  intros [].
Qed.

(** C7. Whatever the handlers of the workflow are, an exception that one
    of them raises during a run does not leave [process_case]: the call
    returns the failure dictionary, whose success flag is false and
    which carries the text of the exception and the case id. *)
Theorem C7_stage_exception_caught (self : FrontlineAgentSystem) (id : Z)
    (off : bool) (db : DB) (name : string) (e : exn) :
  let r := process_case self id off db in
  In (name, Raise e) (stages r) ->
  returned r = Ok [("success", VBool false);
                   ("error", VStr (str_exn e));
                   ("case_id", VInt id)] /\
  outcome_field "success" r = Some (VBool false) /\
  outcome_field "error" r = Some (VStr (str_exn e)) /\
  outcome_field "case_id" r = Some (VInt id).
Proof.
  intros r. unfold outcome_field. subst r. unfold process_case.
  destruct (find _ (cases db)) as [c|]; [|intros []].
  destruct (find _ (citizens db)) as [z|]; [|intros []].
  destruct (run_result _) as [fs|e'] eqn:R; cbn [stages returned]; intros Hin;
    apply ainvoke_raise in Hin; rewrite R in Hin; [discriminate|].
  injection Hin as ->. repeat split.
Qed.

Lemma C7_stage_exception_caught_witness :
  outcome_field "error" (process_case (new_system Sample.now) 2 false Sample.db)
  = Some (VStr "'NoneType' object is not subscriptable").
Proof.
  apply (C7_stage_exception_caught (new_system Sample.now) 2 false Sample.db
           "followup" no_subscript).
  vm_compute. do 3 right. left. reflexivity.
Defined.

(** C10. When no case row has the given id, [process_case] returns the
    dictionary whose one entry is "error": "Case not found", so with no
    success flag, no case id and no final status, it calls no stage and
    leaves the session as it was; whereas every dictionary it returns
    when the row exists carries a success flag and the case id. *)
Theorem C10_case_not_found (self : FrontlineAgentSystem) (id : Z) (off : bool)
    (db : DB) :
  let r := process_case self id off db in
  (find (fun c => Case.id c =? id) (cases db) = None ->
   returned r = Ok [("error", VStr "Case not found")] /\
   outcome_field "success" r = None /\
   outcome_field "case_id" r = None /\
   outcome_field "final_status" r = None /\
   stages r = [] /\
   final_db r = db) /\
  (find (fun c => Case.id c =? id) (cases db) <> None ->
   forall outcome, returned r = Ok outcome ->
     (exists flag, dict_get "success" outcome = Some (VBool flag)) /\
     dict_get "case_id" outcome = Some (VInt id)).
Proof.
  intros r. subst r. unfold outcome_field, process_case. split.
  - intros ->. repeat split.
  - destruct (find _ (cases db)) as [c|]; [intros _|congruence].
    destruct (find _ (citizens db)) as [z|]; [|discriminate].
    destruct (run_result _); cbn [returned]; intros outcome [= <-];
      (split; [eexists|]); reflexivity.
Qed.

Lemma C10_case_not_found_witness :
  returned (process_case (new_system Sample.now) 7 false Sample.db)
  = Ok [("error", VStr "Case not found")] /\
  final_db (process_case (new_system Sample.now) 7 false Sample.db) = Sample.db.
Proof.
  destruct (C10_case_not_found (new_system Sample.now) 7 false Sample.db)
    as [Hnone _].
  destruct Hnone as (Hret & _ & _ & _ & _ & Hdb); [reflexivity|].
  split; assumption.
Defined.

(** ** EquityTracking *)











Lemma in_update_first {A} (p : A -> bool) (f : A -> A) (l : list A) (x : A) :
  In x (update_first p f l) -> In x l \/ exists y, In y l /\ x = f y.
Proof.
  induction l as [|a l IH]; simpl; [tauto|].
  destruct (p a); simpl.
  - intros [<-|H]; [right; exists a|]; auto.
  - intros [<-|H]; [auto|].
    destruct (IH H) as [H'|(y & Hy & ->)]; [auto|].
    right. exists y. auto.
Qed.

(** The rows stay stamped no later than the clock as long as the clock
    does not run backwards: the stage stamps a new row with the clock and
    keeps the stamp of a row it rewrites. *)
Lemma track_metrics_stamped (now now' : datetime) (state : AgentState) (db : DB) :
  stamped_by now (system_metrics db) ->
  now <= now' ->
  stamped_by now' (metrics_after now state db).
Proof.
  intros Hst Hle m. unfold metrics_after, track_metrics. cbn [snd].
  assert (Hold : In m (system_metrics db) -> SystemMetrics.date m <= now').
  { intros H. specialize (Hst m H). lia. }
  destruct (assigned_service_id state) as [sid|]; [|exact Hold].
  destruct (truthy (Some sid)); [|exact Hold].
  destruct (find _ _); cbn [system_metrics with_system_metrics].
  - intros H. apply in_update_first in H as [H|(y & Hy & ->)]; [auto|].
    specialize (Hst y Hy). cbn. lia.
  - intros H. apply in_app_or in H as [H|[<-|[]]]; [auto|]. cbn. lia.
Qed.

(** Only EquityTracking writes the metrics table. *)
Lemma other_stages_keep_metrics (now : datetime) (s : AgentState) (db : DB) :
  system_metrics (snd (analyze_case now s db)) = system_metrics db /\
  system_metrics (snd (match_service now s db)) = system_metrics db /\
  system_metrics (snd (book_appointment now s db)) = system_metrics db /\
  system_metrics (snd (send_confirmation now s db)) = system_metrics db.
Proof.
  repeat split.
  - unfold analyze_case.
    destruct (find _ _); [|reflexivity].
    destruct (UrgencyLevel_of _); reflexivity.
  - unfold match_service.
    destruct (rbind _ _); [|reflexivity].
    destruct (ServiceType_of _); [|reflexivity].
    destruct (service_query _ _ _); [reflexivity|].
    destruct (find _ _); reflexivity.
  - unfold book_appointment.
    destruct (rbind _ _); [|reflexivity].
    destruct (service_by_id _ _); [|reflexivity].
    destruct (_find_next_slot _ _ _); [|reflexivity].
    cbn [cases with_appointments].
    destruct (find _ _); reflexivity.
  - unfold send_confirmation.
    destruct (_generate_confirmation_message _ _); reflexivity.
Qed.

(** A run of the pipeline keeps the metrics table stamped no later than
    the clock. *)
Lemma process_case_stamped (now : datetime) (id : Z) (off : bool) (db : DB) :
  stamped_by now (system_metrics db) ->
  stamped_by now (system_metrics (final_db (process_case (new_system now) id off db))).
Proof.
  intros Hst.
  destruct (process_case_split (new_system now) id off db)
    as [(c & z & Hc & Hz)|[_ ->]]; [|exact Hst].
  destruct (process_case_found now id off db c z Hc Hz) as (_ & -> & _).
  rewrite ainvoke_workflow. unfold and_then.
  set (s0 := initial_state id off c z).
  pose proof (other_stages_keep_metrics now s0 db) as (H1 & _).
  destruct (analyze_case now s0 db) as [[s1|e] db1]; cbn [snd] in H1;
    cbn [run_db]; [|now rewrite H1].
  pose proof (other_stages_keep_metrics now s1 db1) as (_ & H2 & _).
  destruct (match_service now s1 db1) as [[s2|e] db2]; cbn [snd] in H2;
    cbn [run_db]; [|now rewrite H2, H1].
  pose proof (other_stages_keep_metrics now s2 db2) as (_ & _ & H3 & _).
  destruct (book_appointment now s2 db2) as [[s3|e] db3]; cbn [snd] in H3;
    cbn [run_db]; [|now rewrite H3, H2, H1].
  pose proof (other_stages_keep_metrics now s3 db3) as (_ & _ & _ & H4).
  destruct (send_confirmation now s3 db3) as [[s4|e] db4]; cbn [snd] in H4;
    cbn [run_db]; [|now rewrite H4, H3, H2, H1].
  pose proof (track_metrics_stamped now now s4 db4) as H5.
  unfold metrics_after in H5.
  destruct (track_metrics now s4 db4) as [[s5|e] db5]; cbn [snd] in H5;
    cbn [run_db]; apply H5; try lia; now rewrite H4, H3, H2, H1.
Qed.

(** ** The connection manager *)

Import App.

Lemma remove_first_absent (ws : WebSocket) (l : list WebSocket) :
  mem ws l = false -> remove_first ws l = l.
Proof.
  unfold mem. induction l as [|x l IH]; simpl; [reflexivity|].
  rewrite (Z.eqb_sym x ws).
  destruct (ws =? x); simpl; [discriminate|].
  intros H. now rewrite IH.
Qed.

Lemma disconnect_spec (ws : WebSocket) (m : ConnectionManager) :
  case_subscribers (disconnect ws m) = case_subscribers m /\
  active_connections (disconnect ws m) = remove_first ws (active_connections m).
Proof.
  unfold disconnect.
  destruct (mem ws (active_connections m)) eqn:E; simpl; split; try reflexivity.
  symmetry. now apply remove_first_absent.
Qed.

(** The loop up to and including the first sink whose send fails: the
    sinks before it have been served, the failing one is disconnected,
    and the loop is left. *)
Lemma send_loop_failure (pre post : list WebSocket) (ws : WebSocket)
    (message : pydict) (m : ConnectionManager) (net : Net) :
  (forall w, In w pre -> mem w (closed net) = false) ->
  mem ws (closed net) = true ->
  send_loop (pre ++ ws :: post) message m net
  = (Raise (TypeError "object NoneType can't be used in 'await' expression"),
     disconnect ws m,
     mkNet (closed net) (delivered net ++ map (fun w => (w, message)) pre)).
Proof.
  revert net. induction pre as [|w pre IH]; intros net Hopen Hclosed; simpl.
  - unfold send_text. rewrite Hclosed. rewrite app_nil_r.
    now destruct net.
  - unfold send_text at 1. rewrite (Hopen w (or_introl eq_refl)).
    rewrite IH; [|intros x Hx; apply Hopen; now right|exact Hclosed].
    cbn [closed delivered]. now rewrite <- app_assoc.
Qed.

(** C6. When the send to one sink of a case fails during a publish, that
    sink is taken out of the list of active connections; the per-case
    subscriber registry is left as it was, so the sink stays subscribed.
    The sinks registered before it have received the event and nothing
    delivered earlier is lost.  The pipeline run is not touched: the
    task publishes after [process_case] has returned, so the run and the
    session it leaves are those of [process_case] whatever the sinks
    do. *)
Theorem C6_failed_sink_stays_subscribed (case_id : Z) (message : pydict)
    (m : ConnectionManager) (net : Net) (pre post : list WebSocket)
    (ws : WebSocket) :
  subscribers case_id (case_subscribers m) = Some (pre ++ ws :: post)%list ->
  (forall w, In w pre -> mem w (closed net) = false) ->
  mem ws (closed net) = true ->
  let m' := snd (fst (send_case_update case_id message m net)) in
  let net' := snd (send_case_update case_id message m net) in
  case_subscribers m' = case_subscribers m /\
  active_connections m' = remove_first ws (active_connections m) /\
  (forall w, In w pre -> In (w, message) (delivered net')) /\
  (forall d, In d (delivered net) -> In d (delivered net')) /\
  (forall agent_system db,
     task_case (process_case_async case_id agent_system db m net)
     = process_case agent_system case_id false db).
Proof.
  intros Hsubs Hopen Hclosed. unfold send_case_update. rewrite Hsubs.
  rewrite (send_loop_failure pre post ws message m net Hopen Hclosed).
  cbn [fst snd delivered].
  destruct (disconnect_spec ws m) as [Hreg Hact].
  repeat split; try assumption.
  - intros w Hw. apply in_or_app. right.
    apply in_map_iff. now exists w.
  - intros d Hd. apply in_or_app. now left.
  - intros agent_system db. unfold process_case_async.
    destruct (returned _) as [result|e].
    + destruct (send_case_update _ _ _ _) as [[[u|e] m1] net1]; [reflexivity|].
      destruct (send_case_update _ _ _ _) as [[r2 m2] net2]. reflexivity.
    + destruct (send_case_update _ _ _ _) as [[r2 m2] net2]. reflexivity.
Qed.

Lemma C6_failed_sink_stays_subscribed_witness :
  subscribers 2
    (case_subscribers
       (snd (fst (send_case_update 2 Sample.event
                    (mkManager [10; 11] [(2, [11; 10])]) Sample.net))))
  = Some [11; 10] /\
  In (11, Sample.event)
     (delivered (snd (send_case_update 2 Sample.event
                        (mkManager [10; 11] [(2, [11; 10])]) Sample.net))).
Proof.
  destruct (C6_failed_sink_stays_subscribed 2 Sample.event
              (mkManager [10; 11] [(2, [11; 10])]) Sample.net [11] [] 10)
    as (Hreg & _ & Hpre & _).
  - reflexivity.
  - intros w [<-|[]]. reflexivity.
  - reflexivity.
  - split.
    + rewrite Hreg. reflexivity.
    + apply Hpre. now left.
Defined.

(** Sockets 10 and 11 follow case 2 and the peer of 10 is gone: after
    the publish socket 10 is still in the registry of case 2, socket 11
    has received nothing, and the call has raised. *)
Lemma C6_failed_sink_not_removed :
  let out := send_case_update 2 Sample.event Sample.manager Sample.net in
  subscribers 2 (case_subscribers (snd (fst out))) = Some [10; 11] /\
  delivered (snd out) = [] /\
  fst (fst out)
  = Raise (TypeError "object NoneType can't be used in 'await' expression").
Proof.
  repeat split.
Qed.

(** * Further properties *)

(** ** Enumerations and the triage rules *)

Lemma UrgencyLevel_of_iff (value : string) (u : UrgencyLevel) :
  UrgencyLevel_of value = Ok u <-> value = UrgencyLevel_value u.
Proof.
  split.
  - unfold UrgencyLevel_of.
    repeat match goal with
           | |- context [String.eqb value ?k] =>
               destruct (String.eqb_spec value k) as [->|?]
           end; intros [= <-]; reflexivity.
  - intros ->. destruct u; reflexivity.
Qed.

(** [ServiceType(v)] on a string, as a chain of comparisons *)
Lemma ServiceType_of_str (s : string) :
  ServiceType_of (VStr s)
  = if String.eqb s "medical" then Ok MEDICAL
    else if String.eqb s "emergency" then Ok EMERGENCY
    else if String.eqb s "social" then Ok SOCIAL
    else if String.eqb s "administrative" then Ok ADMINISTRATIVE
    else Raise (ValueError (repr_str s ++ " is not a valid ServiceType")).
Proof.
  repeat match goal with
         | |- context [String.eqb s ?k] =>
             destruct (String.eqb_spec s k) as [->|?]
         end; try reflexivity.
  unfold ServiceType_of.
  repeat (first [ reflexivity
                 | match goal with
                   | |- context [match ?x with _ => _ end] => is_var x; destruct x
                   end
                 | congruence ]).
Qed.

Lemma ServiceType_of_iff (value : pyval) (t : ServiceType) :
  ServiceType_of value = Ok t <-> value = VStr (ServiceType_value t).
Proof.
  split.
  - destruct value as [| | |s| |]; try discriminate.
    rewrite ServiceType_of_str.
    repeat match goal with
           | |- context [String.eqb s ?k] =>
               destruct (String.eqb_spec s k) as [->|?]
           end; intros [= <-]; reflexivity.
  - intros ->. destruct t; reflexivity.
Qed.

(** X1. [UrgencyLevel(v)] and [ServiceType(v)] return a member exactly
    when [v] is the value declared for that member, so the value of a
    member reads back as the member; any other string, a declared value
    in another letter case included, makes [UrgencyLevel] raise
    [ValueError] with the text "<repr of v> is not a valid
    UrgencyLevel", the [repr] being the one Python writes (double
    quotes around a string that holds an apostrophe, escapes). *)
Theorem X1_enum_values_round_trip :
  (forall value u, UrgencyLevel_of value = Ok u <-> value = UrgencyLevel_value u) /\
  (forall value t, ServiceType_of value = Ok t <-> value = VStr (ServiceType_value t)) /\
  (forall value,
     (forall u, value <> UrgencyLevel_value u) ->
     UrgencyLevel_of value
     = Raise (ValueError (repr_str value ++ " is not a valid UrgencyLevel"))).
Proof.
  split; [exact UrgencyLevel_of_iff|]. split; [exact ServiceType_of_iff|].
  intros value Hno. unfold UrgencyLevel_of.
  repeat match goal with
         | |- context [String.eqb value ?k] =>
             destruct (String.eqb_spec value k) as [->|?]
         end; try reflexivity.
  - now destruct (Hno LOW).
  - now destruct (Hno MEDIUM).
  - now destruct (Hno HIGH).
  - now destruct (Hno CRITICAL).
Qed.

Lemma X1_enum_values_round_trip_witness :
  UrgencyLevel_of "High"
  = Raise (ValueError ("'High' is not a valid UrgencyLevel")) /\
  UrgencyLevel_of "it's"
  = Raise (ValueError (dq ++ "it's" ++ dq ++ " is not a valid UrgencyLevel")).
Proof.
  destruct X1_enum_values_round_trip as (_ & _ & H).
  split.
  - apply (H "High"). intros u. destruct u; discriminate.
  - apply (H "it's"). intros u. destruct u; discriminate.
Defined.

(** X2. Whatever the description, the urgency and the service type that
    Triage computes are declared values of [UrgencyLevel] and
    [ServiceType], so neither constructor raises in the pipeline, and
    the estimated duration is the one of that urgency: 60, 45, 30 or 15
    minutes. *)
Theorem X2_triage_outputs_are_enum_values (description : string) :
  exists u t,
    UrgencyLevel_of (_determine_urgency description) = Ok u /\
    ServiceType_of (VStr (_determine_service_type description)) = Ok t /\
    _estimate_duration description (_determine_urgency description)
    = match u with CRITICAL => 60 | HIGH => 45 | MEDIUM => 30 | LOW => 15 end.
Proof.
  unfold _determine_urgency, _determine_service_type.
  repeat match goal with
         | |- context [if any_in ?w ?t then _ else _] => destruct (any_in w t)
         end; do 2 eexists; repeat split.
Qed.

Lemma medical_word_gives_medical (description word : string) :
  In word medical_words ->
  ci_substring word description ->
  _determine_service_type description = "medical".
Proof.
  intros Hin Hci. unfold _determine_service_type.
  rewrite (any_in_intro _ word); [reflexivity|exact Hin|].
  apply str_in_ci; [|exact Hci].
  unfold medical_words in Hin; simpl in Hin.
  destruct Hin as [<-|[<-|[<-|[<-|[<-|[<-|[]]]]]]]; reflexivity.
Qed.

(** X3. A description in which one of "medical", "doctor", "hospital",
    "health", "pain", "injury" occurs, in any letter case, is given the
    service type medical whatever else it contains: the medical rule is
    tried first, before the emergency, social and administrative
    ones. *)
Theorem X3_medical_keyword_wins (description word : string) :
  In word ["medical"; "doctor"; "hospital"; "health"; "pain"; "injury"] ->
  ci_substring word description ->
  _determine_service_type description = "medical".
Proof.
  exact (medical_word_gives_medical description word).
Qed.

Lemma X3_medical_keyword_wins_witness :
  _determine_service_type "EMERGENCY at the Hospital, call the police" = "medical".
Proof.
  apply (X3_medical_keyword_wins _ "hospital").
  - simpl. tauto.
  - exists "EMERGENCY at the ", "Hospital", ", call the police".
    split; reflexivity.
Defined.

(** X4. "pain" and "injury" are keywords of both rule lists: a
    description in which one of them occurs is a medical case of urgency
    high or critical, so the only services Guidance considers for it are
    medical services with the emergency flag set. *)
Theorem X4_pain_needs_emergency_medical (description word : string) (db : DB)
    (x : Service.t) :
  In word ["pain"; "injury"] ->
  ci_substring word description ->
  In x (service_query (_determine_urgency description) MEDICAL db) ->
  _determine_service_type description = "medical" /\
  (_determine_urgency description = "critical" \/
   _determine_urgency description = "high") /\
  Service.type x = MEDICAL /\
  Service.is_emergency x = true.
Proof.
  intros Hin Hci Hx.
  assert (Hlow : lower word = word).
  { destruct Hin as [<-|[<-|[]]]; reflexivity. }
  assert (Hs : str_in word (lower description) = true) by now apply str_in_ci.
  assert (Hu : _determine_urgency description = "critical" \/
               _determine_urgency description = "high").
  { unfold _determine_urgency.
    destruct (any_in critical_words _); [now left|].
    rewrite (any_in_intro high_words word); [now right| |exact Hs].
    destruct Hin as [<-|[<-|[]]]; simpl; auto. }
  split.
  { apply (medical_word_gives_medical description word); [|exact Hci].
    destruct Hin as [<-|[<-|[]]]; simpl; auto 10. }
  split; [exact Hu|].
  destruct (service_query_In _ _ _ _ Hx) as (_ & Hty & Hem).
  split; [exact Hty|]. apply Hem. tauto.
Qed.

Lemma X4_pain_needs_emergency_medical_witness :
  Service.is_emergency
    (Service.mk 1 "General Hospital Emergency" MEDICAL (Some "Emergency Medicine")
                (Some "123 Medical Center Dr") (Some "555-0123") true) = true.
Proof.
  apply (X4_pain_needs_emergency_medical "My back pain is getting worse" "pain"
           Sample.db).
  - simpl. tauto.
  - exists "My back ", "pain", " is getting worse". split; reflexivity.
  - vm_compute. left. reflexivity.
Defined.

Lemma datetime_bounds :
  min_datetime = -62135596800000000 /\ max_datetime = 253402300799999999.
Proof.
  split; reflexivity.
Qed.

(** an addition returns the sum when it is a [datetime], and raises
    otherwise *)
Lemma add_timedelta_cases (t delta : Z) :
  match add_timedelta t delta with
  | Ok r => r = t + delta /\ valid_datetime r
  | Raise e =>
      e = OverflowError "date value out of range" /\ ~ valid_datetime (t + delta)
  end.
Proof.
  unfold add_timedelta, valid_datetime.
  destruct (min_datetime <=? t + delta) eqn:E1;
    destruct (t + delta <=? max_datetime) eqn:E2; cbn [andb];
    try apply Z.leb_le in E1; try apply Z.leb_le in E2;
    try apply Z.leb_gt in E1; try apply Z.leb_gt in E2;
    split; try reflexivity; lia.
Qed.

(** X5. With the clock a [datetime], Booking finds a slot unless the
    clock is in the last three days of the year 9999, where the addition
    may raise [OverflowError], as it does in the source; in particular
    it finds one whenever three days after the clock is a [datetime].
    The slot it finds is a [datetime] between one hour and three days
    after the clock; a slot within four hours goes with an estimated
    duration of at least 45 minutes; and an urgency that is none of
    "critical", "high", "medium" is treated as low: three days, 15
    minutes.  The estimated duration is between 15 and 60 minutes for
    every urgency string. *)
Theorem X5_slot_and_duration_bounds (now : datetime) (service : Service.t)
    (description urgency : string) :
  valid_datetime now ->
  15 <= _estimate_duration description urgency <= 60 /\
  match _find_next_slot now service urgency with
  | Ok slot =>
      now + timedelta 0 1 <= slot <= now + timedelta 3 0 /\
      valid_datetime slot /\
      (slot <= now + timedelta 0 4 ->
       45 <= _estimate_duration description urgency) /\
      ((forall tier, In tier ["critical"; "high"; "medium"] -> urgency <> tier) ->
       slot = now + timedelta 3 0 /\
       _estimate_duration description urgency = 15)
  | Raise e =>
      e = OverflowError "date value out of range" /\
      ~ valid_datetime (now + timedelta 3 0)
  end /\
  (valid_datetime (now + timedelta 3 0) ->
   exists slot, _find_next_slot now service urgency = Ok slot).
Proof.
  intros Hnow.
  destruct datetime_bounds as [Hmin Hmax].
  unfold _find_next_slot, _estimate_duration.
  repeat match goal with
         | |- context [String.eqb urgency ?k] =>
             destruct (String.eqb_spec urgency k) as [->|?]
         end;
    match goal with
    | |- context [add_timedelta now ?d] =>
        pose proof (add_timedelta_cases now d) as H;
        destruct (add_timedelta now d) as [slot|e]; destruct H as [H1 H2]
    end;
    unfold valid_datetime, timedelta, us_per_day, us_per_second in *;
    rewrite Hmin, Hmax in *;
    (split; [lia|]); (split; [|try (intros _; eexists; reflexivity); lia]);
    try (split; [exact H1|lia]);
    (split; [lia|]); (split; [lia|]); (split; [lia|]);
    intros H; try (split; [lia|reflexivity]);
    exfalso; eapply H; try reflexivity; simpl; tauto.
Qed.

Lemma X5_slot_and_duration_bounds_witness :
  valid_datetime Sample.now /\
  exists slot,
    _find_next_slot Sample.now
      (Service.mk 2 "Community Health Clinic" MEDICAL (Some "General Practice")
                  (Some "456 Community Ave") (Some "555-0124") false) "routine"
    = Ok slot.
Proof.
  assert (H : valid_datetime Sample.now) by (vm_compute; split; discriminate).
  split; [exact H|].
  pose proof (X5_slot_and_duration_bounds Sample.now
                (Service.mk 2 "Community Health Clinic" MEDICAL
                            (Some "General Practice") (Some "456 Community Ave")
                            (Some "555-0124") false)
                "A routine question" "routine" H) as (_ & _ & Hfound).
  apply Hfound. vm_compute. split; discriminate.
Defined.

(** ** The offline handler *)

(** X6. The offline classifier against the rules of Triage: when it
    answers "high" the triage rule answers "critical", and when it
    answers "medical" the triage rule answers "medical".  Its answers
    are "high" or "medium" and "medical" or "general", and "general" is
    not a value of [ServiceType]. *)
Theorem X6_offline_agrees_with_triage (description : string) :
  (_simple_triage (VStr description) = Ok "high" ->
   _determine_urgency description = "critical") /\
  (_simple_service_match (VStr description) = Ok "medical" ->
   _determine_service_type description = "medical") /\
  (exists u, _simple_triage (VStr description) = Ok u /\
             (u = "high" \/ u = "medium")) /\
  (exists t, _simple_service_match (VStr description) = Ok t /\
             (t = "medical" \/ t = "general")) /\
  (forall t, ServiceType_of (VStr "general") <> Ok t).
Proof.
  unfold _simple_triage, _simple_service_match. cbn [method_lower rbind].
  repeat split.
  - destruct (any_in ["emergency"; "urgent"; "critical"; "severe"] (lower description))
      eqn:E; [intros _|discriminate].
    apply existsb_exists in E as (w & Hw & Hs).
    unfold _determine_urgency.
    rewrite (any_in_intro critical_words w); [reflexivity| |exact Hs].
    unfold critical_words. simpl in *. tauto.
  - destruct (any_in ["medical"; "health"; "doctor"] (lower description))
      eqn:E; [intros _|discriminate].
    apply existsb_exists in E as (w & Hw & Hs).
    unfold _determine_service_type.
    rewrite (any_in_intro _ w); [reflexivity| |exact Hs].
    simpl in *. tauto.
  - destruct (any_in _ _); eexists; split; try reflexivity; auto.
  - destruct (any_in _ _); eexists; split; try reflexivity; auto.
  - intros t. discriminate.
Qed.

Lemma X6_offline_agrees_with_triage_witness :
  _determine_urgency "Urgent: my mother needs a doctor" = "critical" /\
  _determine_service_type "Urgent: my mother needs a doctor" = "medical".
Proof.
  destruct (X6_offline_agrees_with_triage "Urgent: my mother needs a doctor")
    as (Hu & Ht & _).
  split; [apply Hu|apply Ht]; reflexivity.
Defined.

(** X7. [process_case_offline] raises [KeyError] when the request has no
    "description" and [AttributeError] when the description is not a
    string; otherwise it returns the two classifications with its two
    fixed texts, and the endpoint wraps that dictionary under
    "recommendation".  An exception of the handler leaves the endpoint
    as it is. *)
Theorem X7_offline_request (case_data : pydict) :
  match dict_get "description" case_data with
  | None =>
      process_case_offline case_data = Raise (KeyError "description") /\
      submit_case_offline case_data = Raise (KeyError "description")
  | Some (VStr description) =>
      exists urgency service_type,
        _simple_triage (VStr description) = Ok urgency /\
        _simple_service_match (VStr description) = Ok service_type /\
        process_case_offline case_data
        = Ok [("urgency", VStr urgency);
              ("recommended_service", VStr service_type);
              ("message", VStr "Processed in offline mode with simplified logic");
              ("next_steps",
               VStr "Please visit the nearest service center or call when connection is restored")] /\
        (exists result,
           process_case_offline case_data = Ok result /\
           submit_case_offline case_data
           = Ok [("message", VStr "Case processed in offline mode");
                 ("recommendation", VDict result);
                 ("next_steps",
                  VStr "Please visit service center or call when connection restored")])
  | Some other =>
      process_case_offline case_data
      = Raise (AttributeError
                 ("'" ++ type_name other ++ "' object has no attribute 'lower'")) /\
      submit_case_offline case_data = process_case_offline case_data
  end.
Proof.
  unfold submit_case_offline, process_case_offline, dict_item.
  destruct (dict_get "description" case_data) as [[| | |d| |]|];
    try (split; reflexivity).
  unfold _simple_triage, _simple_service_match. cbn [method_lower rbind].
  destruct (any_in _ _), (any_in _ _); do 2 eexists; repeat split;
    eexists; split; reflexivity.
Qed.

(** ** Publishing to the sinks of a case *)

Lemma send_loop_all_open (subs : list WebSocket) (message : pydict)
    (m : ConnectionManager) (net : Net) :
  all_open subs net = true ->
  send_loop subs message m net = (Ok tt, m, delivered_to subs message net).
Proof.
  revert net. induction subs as [|w subs IH]; intros net H; simpl.
  - unfold delivered_to. simpl. rewrite app_nil_r. now destruct net.
  - unfold all_open in H. simpl in H. apply andb_true_iff in H as [Hw H].
    unfold send_text. apply negb_true_iff in Hw. rewrite Hw.
    rewrite IH; [|exact H].
    unfold delivered_to. cbn [closed delivered]. simpl. now rewrite <- app_assoc.
Qed.

Lemma first_closed (subs : list WebSocket) (net : Net) :
  all_open subs net = false ->
  exists pre ws post,
    subs = (pre ++ ws :: post)%list /\
    all_open pre net = true /\ mem ws (closed net) = true.
Proof.
  unfold all_open. induction subs as [|w subs IH]; simpl; [discriminate|].
  destruct (mem w (closed net)) eqn:E; simpl.
  - intros _. exists [], w, subs. auto.
  - intros H. destruct (IH H) as (pre & ws & post & -> & Hpre & Hws).
    exists (w :: pre), ws, post. simpl. rewrite E. auto.
Qed.

Lemma all_open_In (subs : list WebSocket) (net : Net) :
  all_open subs net = true -> forall w, In w subs -> mem w (closed net) = false.
Proof.
  unfold all_open. rewrite forallb_forall. intros H w Hw.
  apply negb_true_iff. now apply H.
Qed.

Lemma send_case_update_cases (case_id : Z) (message : pydict)
    (m : ConnectionManager) (net : Net) :
  if all_open (case_sinks case_id m) net
  then send_case_update case_id message m net
       = (Ok tt, m, delivered_to (case_sinks case_id m) message net)
  else exists pre ws post,
         case_sinks case_id m = (pre ++ ws :: post)%list /\
         all_open pre net = true /\ mem ws (closed net) = true /\
         send_case_update case_id message m net
         = (Raise await_none, disconnect ws m, delivered_to pre message net).
Proof.
  unfold send_case_update, case_sinks.
  destruct (subscribers case_id (case_subscribers m)) as [subs|].
  - destruct (all_open subs net) eqn:E.
    + now apply send_loop_all_open.
    + destruct (first_closed subs net E) as (pre & ws & post & -> & Hpre & Hws).
      exists pre, ws, post. repeat split; try assumption.
      apply send_loop_failure; [|exact Hws].
      now apply all_open_In.
  - simpl. unfold delivered_to. simpl. rewrite app_nil_r. now destruct net.
Qed.

(** X8. Publishing an event to a case delivers it to every registered
    sink, in registration order, and changes nothing else when all of
    them accept the send; as soon as one is closed the call raises
    [TypeError] (the handler awaits the [None] that [disconnect]
    returns), so the publisher is not shielded from a dead sink.  In
    both cases no socket is closed or reopened and the subscriber
    registry is the one before the call. *)
Theorem X8_publish_reaches_all_or_raises (case_id : Z) (message : pydict)
    (m : ConnectionManager) (net : Net) :
  (if all_open (case_sinks case_id m) net
   then send_case_update case_id message m net
        = (Ok tt, m, delivered_to (case_sinks case_id m) message net)
   else fst (fst (send_case_update case_id message m net)) = Raise await_none) /\
  closed (snd (send_case_update case_id message m net)) = closed net /\
  case_subscribers (snd (fst (send_case_update case_id message m net)))
  = case_subscribers m.
Proof.
  pose proof (send_case_update_cases case_id message m net) as H.
  destruct (all_open (case_sinks case_id m) net).
  - rewrite H. repeat split.
  - destruct H as (pre & ws & post & _ & _ & _ & ->).
    repeat split. apply disconnect_spec.
Qed.

Lemma subscribers_append_same (case_id : Z) (ws : WebSocket)
    (d : list (Z * list WebSocket)) :
  subscribers case_id (append_subscriber case_id ws d)
  = Some (match subscribers case_id d with Some l => l | None => [] end ++ [ws])%list.
Proof.
  induction d as [|[k l] d IH]; simpl.
  - now rewrite Z.eqb_refl.
  - destruct (k =? case_id) eqn:E; simpl; rewrite E; [reflexivity|exact IH].
Qed.

Lemma subscribers_append_other (case_id other : Z) (ws : WebSocket)
    (d : list (Z * list WebSocket)) :
  other <> case_id ->
  subscribers other (append_subscriber case_id ws d) = subscribers other d.
Proof.
  intros Hne. induction d as [|[k l] d IH]; simpl.
  - destruct (case_id =? other) eqn:E; [|reflexivity].
    apply Z.eqb_eq in E. congruence.
  - destruct (k =? case_id) eqn:E; simpl.
    + apply Z.eqb_eq in E; subst k.
      destruct (case_id =? other) eqn:E'; [|reflexivity].
      apply Z.eqb_eq in E'. congruence.
    + now rewrite IH.
Qed.

(** X9. [subscribe_to_case] appends the socket at the end of the sinks
    of its case, also when it is already among them (a socket that
    subscribes twice gets every event twice), and leaves the sinks of
    every other case and the active connections as they were. *)
Theorem X9_subscribe_appends_sink (case_id other : Z) (ws : WebSocket)
    (m : ConnectionManager) :
  case_sinks case_id (subscribe_to_case case_id ws m)
  = (case_sinks case_id m ++ [ws])%list /\
  (other <> case_id ->
   case_sinks other (subscribe_to_case case_id ws m) = case_sinks other m) /\
  active_connections (subscribe_to_case case_id ws m) = active_connections m.
Proof.
  unfold case_sinks, subscribe_to_case. cbn [case_subscribers active_connections].
  rewrite subscribers_append_same. repeat split.
  intros Hne. now rewrite subscribers_append_other.
Qed.

Lemma all_open_app (a b : list WebSocket) (net : Net) :
  all_open (a ++ b) net = all_open a net && all_open b net.
Proof.
  unfold all_open. apply forallb_app.
Qed.

(** X10. After a whole websocket session (connect, subscribe, then the
    disconnect of the handler) the socket is still a sink of its case:
    the active connections are those before the session, given that the
    socket was not among them, but the next publish to the case, the
    socket being closed by then, raises. *)
Theorem X10_disconnected_client_stays_subscribed (case_id : Z) (ws : WebSocket)
    (m : ConnectionManager) (net : Net) (message : pydict) :
  case_sinks case_id (websocket_endpoint case_id ws m)
  = (case_sinks case_id m ++ [ws])%list /\
  (mem ws (active_connections m) = false ->
   active_connections (websocket_endpoint case_id ws m) = active_connections m) /\
  (mem ws (closed net) = true ->
   fst (fst (send_case_update case_id message (websocket_endpoint case_id ws m) net))
   = Raise await_none).
Proof.
  assert (Hs : case_sinks case_id (websocket_endpoint case_id ws m)
               = (case_sinks case_id m ++ [ws])%list).
  { unfold websocket_endpoint, websocket_opened, case_sinks.
    destruct (disconnect_spec ws
                (subscribe_to_case case_id ws (connect ws m))) as [-> _].
    cbn [subscribe_to_case connect case_subscribers].
    now rewrite subscribers_append_same. }
  split; [exact Hs|]. split.
  - intros Hnot. unfold websocket_endpoint, websocket_opened.
    destruct (disconnect_spec ws
                (subscribe_to_case case_id ws (connect ws m))) as [_ ->].
    cbn [subscribe_to_case connect active_connections].
    induction (active_connections m) as [|x l IH]; simpl.
    + now rewrite Z.eqb_refl.
    + unfold mem in Hnot. simpl in Hnot. apply orb_false_iff in Hnot as [Hx Hl].
      rewrite Z.eqb_sym, Hx. f_equal. now apply IH.
  - intros Hclosed.
    pose proof (send_case_update_cases case_id message
                  (websocket_endpoint case_id ws m) net) as H.
    rewrite Hs, all_open_app in H.
    replace (all_open [ws] net) with false in H.
    + rewrite andb_false_r in H.
      destruct H as (pre & ws' & post & _ & _ & _ & ->). reflexivity.
    + unfold all_open. simpl. now rewrite Hclosed.
Qed.

Lemma X10_disconnected_client_stays_subscribed_witness :
  active_connections (websocket_endpoint 2 10 (mkManager [] [])) = [] /\
  fst (fst (send_case_update 2 Sample.event
              (websocket_endpoint 2 10 (mkManager [] [])) Sample.net))
  = Raise await_none.
Proof.
  destruct (X10_disconnected_client_stays_subscribed 2 10 (mkManager [] [])
              Sample.net Sample.event) as (_ & Ha & Hp).
  split; [apply Ha|apply Hp]; reflexivity.
Defined.

Lemma case_sinks_disconnect (case_id : Z) (ws : WebSocket) (m : ConnectionManager) :
  case_sinks case_id (disconnect ws m) = case_sinks case_id m.
Proof.
  unfold case_sinks. now destruct (disconnect_spec ws m) as [-> _].
Qed.

Lemma first_closed_sink_closed (subs : list WebSocket) (net net' : Net) :
  closed net' = closed net ->
  first_closed_sink subs net' = first_closed_sink subs net /\
  open_prefix subs net' = open_prefix subs net.
Proof.
  intros H. induction subs as [|w subs [IH1 IH2]]; simpl; [auto|].
  rewrite H, IH1, IH2. auto.
Qed.

Lemma first_closed_sink_none (subs : list WebSocket) (net : Net) :
  first_closed_sink subs net = None <-> all_open subs net = true.
Proof.
  unfold all_open. induction subs as [|w subs IH]; simpl; [tauto|].
  destruct (mem w (closed net)); simpl; [split; discriminate|exact IH].
Qed.

Lemma send_loop_exact (subs : list WebSocket) (message : pydict)
    (m : ConnectionManager) (net : Net) :
  send_loop subs message m net
  = match first_closed_sink subs net with
    | None => (Ok tt, m, delivered_to subs message net)
    | Some ws =>
        (Raise await_none, disconnect ws m,
         delivered_to (open_prefix subs net) message net)
    end.
Proof.
  revert net. induction subs as [|w subs IH]; intros net; simpl.
  - unfold delivered_to. simpl. rewrite app_nil_r. now destruct net.
  - unfold send_text. destruct (mem w (closed net)) eqn:E.
    + unfold delivered_to. simpl. rewrite app_nil_r. now destruct net.
    + rewrite IH.
      destruct (first_closed_sink_closed subs net
                  (mkNet (closed net) (delivered net ++ [(w, message)])%list)
                  eq_refl) as [-> ->].
      destruct (first_closed_sink subs net); unfold delivered_to;
        cbn [closed delivered map]; now rewrite <- app_assoc.
Qed.

Lemma send_case_update_exact (case_id : Z) (message : pydict)
    (m : ConnectionManager) (net : Net) :
  send_case_update case_id message m net
  = match first_closed_sink (case_sinks case_id m) net with
    | None => (Ok tt, m, delivered_to (case_sinks case_id m) message net)
    | Some ws =>
        (Raise await_none, disconnect ws m,
         delivered_to (open_prefix (case_sinks case_id m) net) message net)
    end.
Proof.
  unfold send_case_update, case_sinks.
  destruct (subscribers case_id (case_subscribers m)) as [subs|].
  - apply send_loop_exact.
  - simpl. unfold delivered_to. simpl. rewrite app_nil_r. now destruct net.
Qed.

(** X11. The background task of a submitted case runs the pipeline and
    publishes what came of it: "case_processed" with the dictionary the
    pipeline returned, or "case_error" with the text of the exception
    it raised.  With every sink of the case open the task publishes
    that one event, each sink receives it, the task ends normally and
    the manager is unchanged.  With a closed sink among them the task
    itself ends with [TypeError] and every subscriber is still
    registered; the sinks registered before the first closed one have
    received the event, and, where it was "case_processed", a
    "case_error" event after it that carries the text of the
    [TypeError], because the handler of the task publishes again and
    fails at the same sink; the closed sink and the sinks after it have
    received nothing. *)
Theorem X11_task_publishes_up_to_closed_sink (case_id : Z)
    (agent_system : FrontlineAgentSystem) (db : DB)
    (m : ConnectionManager) (net : Net) :
  let task := process_case_async case_id agent_system db m net in
  let sinks := case_sinks case_id m in
  let reached := open_prefix sinks net in
  match first_closed_sink sinks net with
  | None =>
      task_result task = Ok tt /\
      task_manager task = m /\
      task_net task
      = delivered_to sinks
          match returned (process_case agent_system case_id false db) with
          | Ok result => processed_event case_id result
          | Raise e => error_event case_id e
          end net
  | Some ws =>
      task_result task = Raise await_none /\
      case_subscribers (task_manager task) = case_subscribers m /\
      match returned (process_case agent_system case_id false db) with
      | Ok result =>
          task_manager task = disconnect ws (disconnect ws m) /\
          task_net task
          = delivered_to reached (error_event case_id await_none)
              (delivered_to reached (processed_event case_id result) net)
      | Raise e =>
          task_manager task = disconnect ws m /\
          task_net task = delivered_to reached (error_event case_id e) net
      end
  end.
Proof.
  intros task sinks reached. subst task sinks reached.
  unfold process_case_async.
  destruct (returned (process_case agent_system case_id false db)) as [result|e].
  - change [("type", VStr "case_processed"); ("case_id", VInt case_id);
            ("result", VDict result)] with (processed_event case_id result).
    rewrite (send_case_update_exact case_id (processed_event case_id result) m net).
    destruct (first_closed_sink (case_sinks case_id m) net) as [ws|] eqn:E.
    + change [("type", VStr "case_error"); ("case_id", VInt case_id);
              ("error", VStr (str_exn await_none))]
        with (error_event case_id await_none).
      rewrite send_case_update_exact, case_sinks_disconnect.
      destruct (first_closed_sink_closed (case_sinks case_id m) net
                  (delivered_to (open_prefix (case_sinks case_id m) net)
                     (processed_event case_id result) net) eq_refl) as [-> ->].
      rewrite E. cbn [task_result task_manager task_net].
      repeat split.
      destruct (disconnect_spec ws (disconnect ws m)) as [-> _].
      apply disconnect_spec.
    + repeat split.
  - change [("type", VStr "case_error"); ("case_id", VInt case_id);
            ("error", VStr (str_exn e))] with (error_event case_id e).
    rewrite send_case_update_exact.
    destruct (first_closed_sink (case_sinks case_id m) net) as [ws|];
      cbn [task_result task_manager task_net]; repeat split.
    apply disconnect_spec.
Qed.

(** ** What a run writes *)

Lemma writes_app (now : datetime) (id : Z) (a b c : DB) :
  writes now id a b -> writes now id b c -> writes now id a c.
Proof.
  induction 1; intros H'; [exact H'|].
  eapply writes_step; eauto.
Qed.

Lemma handlers_write (now : datetime) (s : AgentState) (db : DB) :
  writes now (case_id s) db (snd (analyze_case now s db)) /\
  writes now (case_id s) db (snd (match_service now s db)) /\
  writes now (case_id s) db (snd (book_appointment now s db)) /\
  writes now (case_id s) db (snd (send_confirmation now s db)) /\
  writes now (case_id s) db (snd (track_metrics now s db)).
Proof.
  repeat split.
  - unfold analyze_case.
    destruct (find _ _); [|apply writes_done].
    destruct (UrgencyLevel_of _); [|apply writes_done].
    cbn [snd].
    eapply writes_step; [apply write_case|].
    eapply writes_step; [apply write_update|apply writes_done].
  - unfold match_service.
    destruct (rbind _ _); [|apply writes_done].
    destruct (ServiceType_of _); [|apply writes_done].
    destruct (service_query _ _ _); [apply writes_done|].
    destruct (find _ _); [|apply writes_done].
    cbn [snd].
    eapply writes_step; [apply write_case|].
    eapply writes_step; [apply write_update|apply writes_done].
  - unfold book_appointment.
    destruct (rbind _ _); [|apply writes_done].
    destruct (service_by_id _ _); [|apply writes_done].
    destruct (_find_next_slot _ _ _); [|apply writes_done].
    cbn [cases with_appointments].
    destruct (find _ _); cbn [snd].
    + eapply writes_step; [apply write_appointment|].
      eapply writes_step; [apply write_case|].
      eapply writes_step; [apply write_update|apply writes_done].
    + eapply writes_step; [apply write_appointment|apply writes_done].
  - unfold send_confirmation.
    destruct (_generate_confirmation_message _ _); [|apply writes_done].
    cbn [snd].
    eapply writes_step; [apply write_confirmation|].
    eapply writes_step; [apply write_update|apply writes_done].
  - unfold track_metrics. cbn [snd].
    destruct (assigned_service_id s) as [sid|]; [|apply writes_done].
    destruct (truthy _); [|apply writes_done].
    destruct (find _ _).
    + eapply writes_step; [apply write_metric_count|apply writes_done].
    + eapply writes_step; [apply write_metric_row|apply writes_done].
Qed.

Lemma handlers_keep_case_id (now : datetime) (s s' : AgentState) (db db' : DB) :
  analyze_case now s db = (Ok s', db') \/
  match_service now s db = (Ok s', db') \/
  book_appointment now s db = (Ok s', db') \/
  send_confirmation now s db = (Ok s', db') \/
  track_metrics now s db = (Ok s', db') ->
  case_id s' = case_id s.
Proof.
  intros [H|[H|[H|[H|H]]]]; revert H.
  - unfold analyze_case.
    destruct (find _ _); [|intros [= <- _]; reflexivity].
    destruct (UrgencyLevel_of _); intros [= <- _]; reflexivity.
  - unfold match_service.
    destruct (rbind _ _); [|discriminate].
    destruct (ServiceType_of _); [|discriminate].
    destruct (service_query _ _ _); [intros [= <- _]; reflexivity|].
    destruct (find _ _); intros [= <- _]; reflexivity.
  - unfold book_appointment.
    destruct (rbind _ _); [|discriminate].
    destruct (service_by_id _ _); [|intros [= <- _]; reflexivity].
    destruct (_find_next_slot _ _ _); [|discriminate].
    cbn [cases with_appointments].
    destruct (find _ _); intros [= <- _]; reflexivity.
  - unfold send_confirmation.
    destruct (_generate_confirmation_message _ _); intros [= <- _]; reflexivity.
  - unfold track_metrics. intros [= <- _]. reflexivity.
Qed.

Lemma run_writes (now : datetime) (s : AgentState) (db : DB) :
  writes now (case_id s) db (run_db (ainvoke (_create_workflow now) s db)).
Proof.
  rewrite ainvoke_workflow. unfold and_then.
  pose proof (handlers_write now s db) as (W & _).
  destruct (analyze_case now s db) as [[s1|e] db1] eqn:E1; cbn [snd run_db] in *;
    [|exact W].
  rewrite <- (handlers_keep_case_id now s s1 db db1) by auto.
  eapply writes_app; [rewrite (handlers_keep_case_id now s s1 db db1) by auto; exact W|].
  clear W E1.
  pose proof (handlers_write now s1 db1) as (_ & W & _).
  destruct (match_service now s1 db1) as [[s2|e] db2] eqn:E2; cbn [snd run_db] in *;
    [|exact W].
  rewrite <- (handlers_keep_case_id now s1 s2 db1 db2) by auto.
  eapply writes_app; [rewrite (handlers_keep_case_id now s1 s2 db1 db2) by auto; exact W|].
  clear W E2.
  pose proof (handlers_write now s2 db2) as (_ & _ & W & _).
  destruct (book_appointment now s2 db2) as [[s3|e] db3] eqn:E3; cbn [snd run_db] in *;
    [|exact W].
  rewrite <- (handlers_keep_case_id now s2 s3 db2 db3) by auto.
  eapply writes_app; [rewrite (handlers_keep_case_id now s2 s3 db2 db3) by auto; exact W|].
  clear W E3.
  pose proof (handlers_write now s3 db3) as (_ & _ & _ & W & _).
  destruct (send_confirmation now s3 db3) as [[s4|e] db4] eqn:E4; cbn [snd run_db] in *;
    [|exact W].
  rewrite <- (handlers_keep_case_id now s3 s4 db3 db4) by auto 6.
  eapply writes_app; [rewrite (handlers_keep_case_id now s3 s4 db3 db4) by auto 6; exact W|].
  clear W E4.
  pose proof (handlers_write now s4 db4) as (_ & _ & _ & _ & W).
  destruct (track_metrics now s4 db4) as [[s5|e] db5] eqn:E5; cbn [snd run_db] in *;
    exact W.
Qed.

(** every change a call makes to the session is one of these writes *)
Lemma process_case_writes (now : datetime) (id : Z) (off : bool) (db : DB) :
  writes now id db (final_db (process_case (new_system now) id off db)).
Proof.
  destruct (process_case_split (new_system now) id off db)
    as [(c & z & Hc & Hz)|[_ ->]]; [|apply writes_done].
  destruct (process_case_found now id off db c z Hc Hz) as (_ & -> & _).
  apply (run_writes now (initial_state id off c z) db).
Qed.

Lemma cases_kept_refl (id : Z) (l : list Case.t) : cases_kept id l l.
Proof.
  induction l; constructor; auto.
Qed.

Lemma cases_kept_trans (id : Z) (a b c : list Case.t) :
  cases_kept id a b -> cases_kept id b c -> cases_kept id a c.
Proof.
  intros H. revert c. induction H as [|x y a b (H1 & H2 & H3 & H4) Hab IH];
    intros c Hbc; inversion Hbc as [|y' z b' c' (G1 & G2 & G3 & G4) Hbc']; subst.
  - constructor.
  - constructor; [|now apply IH].
    repeat split; try congruence.
    intros Hne. rewrite G4, H4; congruence.
Qed.

Lemma cases_kept_update (id : Z) (f : Case.t -> Case.t) (l : list Case.t) :
  (forall c, Case.id (f c) = Case.id c /\
             Case.citizen_id (f c) = Case.citizen_id c /\
             Case.description (f c) = Case.description c) ->
  cases_kept id l (update_first (fun c => Case.id c =? id) f l).
Proof.
  intros Hf. induction l as [|c l IH]; simpl; [constructor|].
  destruct (Case.id c =? id) eqn:E.
  - constructor; [|apply cases_kept_refl].
    destruct (Hf c) as (H1 & H2 & H3). repeat split; try assumption.
    apply Z.eqb_eq in E. congruence.
  - constructor; [auto|exact IH].
Qed.

(** X12. Whatever happens in a call of [process_case], it leaves the
    services and the citizens as they were, keeps every case row in its
    place with its key, its citizen and its description, and changes
    nothing at all in the rows of other cases. *)
Theorem X12_run_touches_only_its_case (now : datetime) (id : Z) (off : bool) (db : DB) :
  let db' := final_db (process_case (new_system now) id off db) in
  services db' = services db /\
  citizens db' = citizens db /\
  cases_kept id (cases db) (cases db').
Proof.
  intros db'. subst db'.
  induction (process_case_writes now id off db) as [db|db db1 db2 W _ IH].
  - repeat split. apply cases_kept_refl.
  - destruct IH as (Hs & Hc & Hk).
    destruct W; cbn [services citizens cases with_cases add_update
                     with_appointments with_system_metrics] in *;
      repeat split; try assumption.
    eapply cases_kept_trans; [|exact Hk].
    apply cases_kept_update. intros c. repeat split.
Qed.







(** ** The flag [offline_mode] *)

Lemma handlers_ignore_flag (now : datetime) (v : bool) (s : AgentState) (db : DB) :
  analyze_case now (set_offline_mode v s) db = with_flag v (analyze_case now s db) /\
  match_service now (set_offline_mode v s) db = with_flag v (match_service now s db) /\
  book_appointment now (set_offline_mode v s) db
  = with_flag v (book_appointment now s db) /\
  send_confirmation now (set_offline_mode v s) db
  = with_flag v (send_confirmation now s db) /\
  track_metrics now (set_offline_mode v s) db = with_flag v (track_metrics now s db).
Proof.
  unfold with_flag. split; [|split; [|split; [|split]]].
  - unfold analyze_case. cbn [case_id case_description set_offline_mode].
    destruct (find _ _); [|reflexivity].
    destruct (UrgencyLevel_of _); reflexivity.
  - unfold match_service.
    cbn [case_id agent_outputs urgency_level set_offline_mode].
    destruct (rbind _ _); [|reflexivity].
    destruct (ServiceType_of _); [|reflexivity].
    destruct (service_query _ _ _); [reflexivity|].
    destruct (find _ _); reflexivity.
  - unfold book_appointment.
    cbn [case_id agent_outputs urgency_level assigned_service_id set_offline_mode].
    destruct (rbind _ _); [|reflexivity].
    destruct (service_by_id _ _); [|reflexivity].
    destruct (_find_next_slot _ _ _); [|reflexivity].
    cbn [cases with_appointments].
    destruct (find _ _); reflexivity.
  - unfold send_confirmation.
    cbn [case_id appointment_details citizen_data set_offline_mode].
    destruct (_generate_confirmation_message _ _); reflexivity.
  - reflexivity.
Qed.

Lemma run_ignores_flag (now : datetime) (v : bool) (s : AgentState) (db : DB) :
  let r := ainvoke (_create_workflow now) s db in
  let r' := ainvoke (_create_workflow now) (set_offline_mode v s) db in
  run_db r' = run_db r /\
  run_result r' = match run_result r with
                  | Ok s' => Ok (set_offline_mode v s')
                  | Raise e => Raise e
                  end.
Proof.
  cbv zeta. rewrite !ainvoke_workflow. unfold and_then.
  destruct (handlers_ignore_flag now v s db) as (-> & _). unfold with_flag.
  destruct (analyze_case now s db) as [[s1|e] db1]; cbn [fst snd]; [|split; reflexivity].
  destruct (handlers_ignore_flag now v s1 db1) as (_ & -> & _). unfold with_flag.
  destruct (match_service now s1 db1) as [[s2|e] db2]; cbn [fst snd]; [|split; reflexivity].
  destruct (handlers_ignore_flag now v s2 db2) as (_ & _ & -> & _). unfold with_flag.
  destruct (book_appointment now s2 db2) as [[s3|e] db3]; cbn [fst snd]; [|split; reflexivity].
  destruct (handlers_ignore_flag now v s3 db3) as (_ & _ & _ & -> & _). unfold with_flag.
  destruct (send_confirmation now s3 db3) as [[s4|e] db4]; cbn [fst snd]; [|split; reflexivity].
  destruct (handlers_ignore_flag now v s4 db4) as (_ & _ & _ & _ & ->). unfold with_flag.
  destruct (track_metrics now s4 db4) as [[s5|e] db5]; cbn [fst snd]; split; reflexivity.
Qed.

(** X14. The argument [offline_mode] of [process_case] changes nothing:
    the flag is stored in the state and no stage reads it, so the call
    returns the same dictionary and leaves the same session with the
    flag set as without it. *)
Theorem X14_offline_mode_is_ignored (now : datetime) (id : Z) (db : DB) :
  returned (process_case (new_system now) id true db)
  = returned (process_case (new_system now) id false db) /\
  final_db (process_case (new_system now) id true db)
  = final_db (process_case (new_system now) id false db).
Proof.
  unfold process_case.
  destruct (find _ (cases db)) as [c|]; [|split; reflexivity].
  destruct (find _ (citizens db)) as [z|]; [|split; reflexivity].
  cbn [workflow new_system].
  destruct (run_ignores_flag now true (initial_state id false c z) db) as [Hdb Hres].
  change (set_offline_mode true (initial_state id false c z))
    with (initial_state id true c z) in *.
  rewrite Hres.
  destruct (run_result (ainvoke (_create_workflow now) (initial_state id false c z) db));
    cbn [returned final_db]; (split; [reflexivity|exact Hdb]).
Qed.

(** ** Dates written and read back *)

Lemma digits_value_uint (d : Decimal.uint) (acc : Z) :
  digits_value acc (NilEmpty.string_of_uint d) = Some (uint_val acc d).
Proof.
  revert acc. induction d; intros acc; simpl; try reflexivity;
    rewrite IHd; do 2 f_equal; lia.
Qed.

Lemma length_string_of_uint (d : Decimal.uint) :
  String.length (NilEmpty.string_of_uint d) = Decimal.nb_digits d.
Proof.
  induction d; simpl; congruence.
Qed.

Lemma of_uint_acc_val (d : Decimal.uint) (acc : positive) :
  Z.pos (Pos.of_uint_acc d acc) = uint_val (Z.pos acc) d.
Proof.
  revert acc. induction d; intros acc; cbn [Pos.of_uint_acc uint_val];
    try reflexivity; rewrite IHd; f_equal; lia.
Qed.

Lemma of_uint_val (d : Decimal.uint) : Z.of_N (Pos.of_uint d) = uint_val 0 d.
Proof.
  induction d; cbn [Pos.of_uint uint_val Z.of_N]; try reflexivity; try exact IHd;
    rewrite of_uint_acc_val; reflexivity.
Qed.

Lemma uint_val_to_uint (p : positive) : uint_val 0 (Pos.to_uint p) = Z.pos p.
Proof.
  rewrite <- of_uint_val, DecimalPos.Unsigned.of_to. reflexivity.
Qed.

Lemma uint_val_acc (d : Decimal.uint) (acc : Z) :
  uint_val acc d = acc * 10 ^ Z.of_nat (Decimal.nb_digits d) + uint_val 0 d.
Proof.
  revert acc. induction d; intros acc; cbn [Decimal.nb_digits uint_val];
    try (rewrite Z.pow_0_r; lia);
    rewrite Nat2Z.inj_succ, Z.pow_succ_r by lia;
    match goal with
    | |- uint_val ?a d = _ + uint_val ?b d => rewrite (IHd a), (IHd b)
    end; ring.
Qed.

Lemma uint_val_bound (d : Decimal.uint) :
  0 <= uint_val 0 d < 10 ^ Z.of_nat (Decimal.nb_digits d).
Proof.
  induction d; cbn [Decimal.nb_digits uint_val];
    try (rewrite Z.pow_0_r; lia);
    rewrite Nat2Z.inj_succ, Z.pow_succ_r by lia;
    match goal with
    | |- _ <= uint_val ?a d < _ => rewrite (uint_val_acc d a)
    end; lia.
Qed.

(** a sequence that does not start with 0 writes a number of that many
    digits *)
Lemma uint_val_lower (d : Decimal.uint) :
  d <> Decimal.Nil -> (forall l, d <> Decimal.D0 l) ->
  10 ^ (Z.of_nat (Decimal.nb_digits d) - 1) <= uint_val 0 d.
Proof.
  intros Hnil H0.
  destruct d; try congruence; try (now destruct (H0 d));
    cbn [Decimal.nb_digits uint_val];
    rewrite Nat2Z.inj_succ;
    replace (Z.succ (Z.of_nat (Decimal.nb_digits d)) - 1)
      with (Z.of_nat (Decimal.nb_digits d)) by lia;
    match goal with
    | |- _ <= uint_val ?a d => rewrite (uint_val_acc d a)
    end;
    pose proof (uint_val_bound d); lia.
Qed.

Lemma to_uint_head (p : positive) (l : Decimal.uint) :
  Pos.to_uint p <> Decimal.D0 l.
Proof.
  intros H.
  assert (Hn : Decimal.unorm (Pos.to_uint p) = Pos.to_uint p).
  { rewrite <- (DecimalPos.Unsigned.to_of (Pos.to_uint p)), DecimalPos.Unsigned.of_to. reflexivity. }
  unfold Decimal.unorm in Hn.
  destruct (Decimal.nzhead (Pos.to_uint p)) eqn:E.
  - symmetry in Hn. now apply DecimalPos.Unsigned.to_uint_nonzero in Hn.
  - rewrite <- Hn in H. injection H as ->.
    now apply DecimalFacts.nzhead_nonzero in E.
  - rewrite H in Hn. discriminate.
  - rewrite H in Hn. discriminate.
  - rewrite H in Hn. discriminate.
  - rewrite H in Hn. discriminate.
  - rewrite H in Hn. discriminate.
  - rewrite H in Hn. discriminate.
  - rewrite H in Hn. discriminate.
  - rewrite H in Hn. discriminate.
  - rewrite H in Hn. discriminate.
Qed.

Lemma str_of_int_digits (z : Z) (width : nat) :
  0 <= z < 10 ^ Z.of_nat width -> (0 < width)%nat ->
  digits_value 0 (str_of_int z) = Some z /\
  (String.length (str_of_int z) <= width)%nat.
Proof.
  intros [Hlo Hhi] Hw. unfold str_of_int.
  destruct z as [|p|p]; [split; [reflexivity|simpl; lia]| |lia].
  cbn [Z.to_int NilZero.string_of_int].
  assert (Hs : NilZero.string_of_uint (Pos.to_uint p)
               = NilEmpty.string_of_uint (Pos.to_uint p)).
  { destruct (Pos.to_uint p) eqn:E; try reflexivity.
    now apply DecimalPos.Unsigned.to_uint_nonnil in E. }
  rewrite Hs, digits_value_uint, length_string_of_uint, uint_val_to_uint.
  split; [reflexivity|].
  pose proof (uint_val_lower (Pos.to_uint p) (DecimalPos.Unsigned.to_uint_nonnil p)
                (to_uint_head p)) as Hlow.
  rewrite uint_val_to_uint in Hlow.
  assert (Hlt : 10 ^ (Z.of_nat (Decimal.nb_digits (Pos.to_uint p)) - 1)
                < 10 ^ Z.of_nat width) by lia.
  apply Z.pow_lt_mono_r_iff in Hlt; lia.
Qed.

Lemma digits_value_zeros (n : nat) (s : string) :
  digits_value 0 (zeros n ++ s) = digits_value 0 s.
Proof.
  induction n as [|n IH]; [reflexivity|exact IH].
Qed.

Lemma string_length_app (a b : string) :
  String.length (a ++ b) = (String.length a + String.length b)%nat.
Proof.
  induction a; simpl; congruence.
Qed.

Lemma length_zeros (n : nat) : String.length (zeros n) = n.
Proof.
  induction n; simpl; congruence.
Qed.

(** [pad] writes a number below [10 ^ width] in exactly [width] digits
    that read back as the number *)
Lemma pad_digits (width : nat) (z : Z) :
  0 <= z < 10 ^ Z.of_nat width -> (0 < width)%nat ->
  String.length (pad width z) = width /\
  digits_value 0 (pad width z) = Some z.
Proof.
  intros Hz Hw. destruct (str_of_int_digits z width Hz Hw) as [Hv Hl].
  unfold pad. rewrite string_length_app, length_zeros, digits_value_zeros.
  split; [lia|exact Hv].
Qed.

Lemma civil_of_valid_day (d : Z) :
  -719162 <= d < 2932897 ->
  let '(y, m, dd) := civil_from_days d in
  1 <= y <= 9999 /\ 1 <= m <= 12 /\ 1 <= dd <= 31 /\
  days_from_civil y m dd = d.
Proof.
  intros Hd. unfold civil_from_days, days_from_civil. cbv zeta.
  repeat match goal with |- context [if ?b then _ else _] => destruct b eqn:? end;
  repeat match goal with
         | H : (_ <? _) = _ |- _ => first [apply Z.ltb_lt in H | apply Z.ltb_ge in H]
         | H : (_ <=? _) = _ |- _ => first [apply Z.leb_le in H | apply Z.leb_gt in H]
         end.
  all: Z.div_mod_to_equations; lia.
Qed.

Ltac explode s H :=
  repeat (destruct s as [|? s]; cbn [String.length] in H; try discriminate H).

Lemma parse_iso_seconds (sy sm sd sh smi ss : string) (y m d hh mm sec : Z) :
  String.length sy = 4%nat -> String.length sm = 2%nat -> String.length sd = 2%nat ->
  String.length sh = 2%nat -> String.length smi = 2%nat -> String.length ss = 2%nat ->
  digits_value 0 sy = Some y -> digits_value 0 sm = Some m ->
  digits_value 0 sd = Some d -> digits_value 0 sh = Some hh ->
  digits_value 0 smi = Some mm -> digits_value 0 ss = Some sec ->
  parse_iso (sy ++ "-" ++ sm ++ "-" ++ sd ++ "T" ++ sh ++ ":" ++ smi ++ ":" ++ ss)
  = if fields_valid y m d hh mm sec
    then Some (assemble (days_from_civil y m d) hh mm sec 0)
    else None.
Proof.
  intros Ly Lm Ld Lh Lmi Ls Vy Vm Vd Vh Vmi Vs.
  explode sy Ly. explode sm Lm. explode sd Ld.
  explode sh Lh. explode smi Lmi. explode ss Ls.
  unfold parse_iso, field, char_is.
  cbn [append String.length existsb Nat.eqb orb negb andb Nat.leb substring get
       Ascii.eqb Bool.eqb].
  rewrite Vy, Vm, Vd, Vh, Vmi, Vs. cbn [obind].
  reflexivity.
Qed.

Lemma parse_iso_micros (sy sm sd sh smi ss su : string) (y m d hh mm sec us : Z) :
  String.length sy = 4%nat -> String.length sm = 2%nat -> String.length sd = 2%nat ->
  String.length sh = 2%nat -> String.length smi = 2%nat -> String.length ss = 2%nat ->
  String.length su = 6%nat ->
  digits_value 0 sy = Some y -> digits_value 0 sm = Some m ->
  digits_value 0 sd = Some d -> digits_value 0 sh = Some hh ->
  digits_value 0 smi = Some mm -> digits_value 0 ss = Some sec ->
  digits_value 0 su = Some us ->
  parse_iso (sy ++ "-" ++ sm ++ "-" ++ sd ++ "T" ++ sh ++ ":" ++ smi ++ ":" ++ ss
             ++ "." ++ su)
  = if fields_valid y m d hh mm sec
    then Some (assemble (days_from_civil y m d) hh mm sec us)
    else None.
Proof.
  intros Ly Lm Ld Lh Lmi Ls Lu Vy Vm Vd Vh Vmi Vs Vu.
  explode sy Ly. explode sm Lm. explode sd Ld.
  explode sh Lh. explode smi Lmi. explode ss Ls. explode su Lu.
  unfold parse_iso, field, char_is.
  cbn [append String.length existsb Nat.eqb orb negb andb Nat.leb substring get
       Ascii.eqb Bool.eqb].
  rewrite Vy, Vm, Vd, Vh, Vmi, Vs, Vu. cbn [obind].
  reflexivity.
Qed.

Lemma append_nil_r (s : string) : s ++ "" = s.
Proof.
  induction s; simpl; congruence.
Qed.

Lemma time_fields (t : datetime) :
  0 <= hour t < 24 /\ 0 <= minute t < 60 /\ 0 <= second t < 60 /\
  0 <= microsecond t < 1000000 /\
  assemble (date_of t) (hour t) (minute t) (second t) (microsecond t) = t.
Proof.
  unfold assemble, hour, minute, second, microsecond, date_of, us_per_day,
    us_per_second.
  Z.div_mod_to_equations. lia.
Qed.

(** [fromisoformat] reads back what [isoformat] wrote *)
Lemma fromisoformat_isoformat (t : datetime) :
  valid_datetime t -> fromisoformat (VStr (isoformat t)) = Ok t.
Proof.
  intros [Hmin Hmax].
  assert (Hd : -719162 <= date_of t < 2932897).
  { unfold min_datetime, max_datetime, midnight, date_of, us_per_day,
      us_per_second in *.
    change (days_from_civil 1 1 1) with (-719162) in Hmin.
    change (days_from_civil 10000 1 1) with 2932897 in Hmax.
    Z.div_mod_to_equations. lia. }
  pose proof (civil_of_valid_day (date_of t) Hd) as Hc.
  destruct (time_fields t) as (Hh & Hmi & Hs & Hu & Hasm).
  unfold fromisoformat, isoformat, year, month, day.
  destruct (civil_from_days (date_of t)) as [[y m] d] eqn:Ec.
  destruct Hc as (Hy & Hm & Hdd & Hround).
  cbn [fst snd].
  destruct (pad_digits 4 y) as [Ly Vy]; [simpl; lia|lia|].
  destruct (pad_digits 2 m) as [Lm Vm]; [simpl; lia|lia|].
  destruct (pad_digits 2 d) as [Ld Vd]; [simpl; lia|lia|].
  destruct (pad_digits 2 (hour t)) as [Lh Vh]; [simpl; lia|lia|].
  destruct (pad_digits 2 (minute t)) as [Lmi Vmi]; [simpl; lia|lia|].
  destruct (pad_digits 2 (second t)) as [Ls Vs]; [simpl; lia|lia|].
  destruct (pad_digits 6 (microsecond t)) as [Lu Vu]; [simpl; lia|lia|].
  assert (Hvalid : fields_valid y m d (hour t) (minute t) (second t) = true).
  { unfold fields_valid. rewrite Hround, Ec, !Z.eqb_refl.
    repeat (apply andb_true_iff; split); try reflexivity;
      first [apply Z.leb_le | apply Z.ltb_lt]; lia. }
  destruct (microsecond t =? 0) eqn:E.
  - rewrite append_nil_r.
    rewrite (parse_iso_seconds _ _ _ _ _ _ y m d (hour t) (minute t) (second t));
      try assumption.
    rewrite Hvalid, Hround. apply Z.eqb_eq in E. rewrite E in Hasm.
    now rewrite Hasm.
  - rewrite (parse_iso_micros _ _ _ _ _ _ _ y m d (hour t) (minute t) (second t)
               (microsecond t)); try assumption.
    now rewrite Hvalid, Hround, Hasm.
Qed.

(** ** A run that finds a service *)









Lemma total_demand_app (sid : Z) (a b : list SystemMetrics.t) :
  total_demand sid (a ++ b) = total_demand sid a + total_demand sid b.
Proof.
  induction a as [|m a IH]; simpl; [reflexivity|]. rewrite IH. lia.
Qed.

Lemma total_demand_count_one_more (sid a : Z) (p : SystemMetrics.t -> bool)
    (ms : list SystemMetrics.t) :
  (forall m, p m = true -> SystemMetrics.service_id m = a) ->
  find p ms <> None ->
  total_demand sid (update_first p count_one_more ms)
  = total_demand sid ms + (if a =? sid then 1 else 0).
Proof.
  intros Hp. induction ms as [|m ms IH]; simpl; [congruence|].
  destruct (p m) eqn:E; intros Hf.
  - cbn [total_demand count_one_more SystemMetrics.service_id
         SystemMetrics.demand_count].
    rewrite (Hp m E). destruct (a =? sid); lia.
  - cbn [total_demand]. rewrite (IH Hf). lia.
Qed.

(** X15. [fromisoformat] reads back the instant [isoformat] wrote, for
    every instant a [datetime] can hold (years 1 to 9999), with and
    without microseconds: the date Booking stores as text is the date
    Followup reads. *)
Theorem X15_isoformat_round_trip (t : datetime) :
  valid_datetime t -> fromisoformat (VStr (isoformat t)) = Ok t.
Proof.
  exact (fromisoformat_isoformat t).
Qed.

Lemma X15_isoformat_round_trip_witness :
  valid_datetime Sample.now /\
  fromisoformat (VStr (isoformat Sample.now)) = Ok Sample.now.
Proof.
  assert (H : valid_datetime Sample.now) by (vm_compute; split; discriminate).
  split; [exact H|apply (X15_isoformat_round_trip Sample.now H)].
Defined.




Lemma track_metrics_tables (now : datetime) (s : AgentState) (db : DB) :
  let db' := snd (track_metrics now s db) in
  services db' = services db /\ citizens db' = citizens db /\
  cases db' = cases db /\ appointments db' = appointments db /\
  case_updates db' = case_updates db.
Proof.
  unfold track_metrics. cbn [snd].
  destruct (assigned_service_id s) as [sid|]; [|repeat split].
  destruct (truthy _); [|repeat split].
  destruct (find _ _); repeat split.
Qed.

Lemma track_metrics_total (now : datetime) (s : AgentState) (db : DB) (sid : Z) :
  total_demand sid (system_metrics (snd (track_metrics now s db)))
  = total_demand sid (system_metrics db)
    + match assigned_service_id s with
      | Some a => if negb (a =? 0) && (a =? sid) then 1 else 0
      | None => 0
      end.
Proof.
  unfold track_metrics. cbn [snd].
  destruct (assigned_service_id s) as [a|]; [|lia].
  unfold truthy. destruct (a =? 0); cbn [negb andb]; [lia|].
  destruct (find _ _) eqn:F; cbn [system_metrics with_system_metrics].
  - apply total_demand_count_one_more; [|congruence].
    intros m Hm. unfold metric_matches in Hm.
    apply andb_true_iff in Hm as [Hm _]. now apply Z.eqb_eq in Hm.
  - rewrite total_demand_app.
    cbn [total_demand SystemMetrics.service_id SystemMetrics.demand_count]. lia.
Qed.





(** X19. EquityTracking adds exactly one to the demand counted for the
    assigned service over all days, on any metrics table, and nothing
    to the demand of any other service; with no service assigned, or
    with the key 0, it counts nothing.  It touches no other table. *)
Theorem X19_equity_total_demand (now : datetime) (state : AgentState) (db : DB)
    (sid : Z) :
  let db' := snd (track_metrics now state db) in
  total_demand sid (system_metrics db')
  = total_demand sid (system_metrics db)
    + match assigned_service_id state with
      | Some assigned => if negb (assigned =? 0) && (assigned =? sid) then 1 else 0
      | None => 0
      end /\
  services db' = services db /\ citizens db' = citizens db /\
  cases db' = cases db /\ appointments db' = appointments db /\
  case_updates db' = case_updates db.
Proof.
  split; [apply track_metrics_total|apply track_metrics_tables].
Qed.
